(** * DataSourceWithBackend: query dispatch and annotation translation

    A shallow embedding of
    [packages/grafana-runtime/src/utils/DataSourceWithBackend.ts].
    The source listing holds two revisions of the class.  Their [query]
    methods are identical; their [annotationQuery] methods differ and are
    embedded separately, in [Module Processor] (first revision, whose
    preparation hook returns a query together with an optional event
    processor) and in [Module Inline] (second revision, which falls back to
    the inline query of the annotation). *)

From stdpp Require Import gmap strings list fin_maps pretty.

Set Warnings "-register-all".
Set Default Proof Using "Type".

Local Open Scope Z_scope.

(** ** JavaScript values and objects

    The numbers that the class handles are integers: ids, counts and
    epochs in milliseconds. *)

Inductive JsValue : Type :=
  | JUndefined
  | JNull
  | JBool (b : bool)
  | JNumber (n : Z)
  | JString (s : string)
  | JObject (fields : gmap string JsValue).

(** A query target, a substituted query and a payload entry are plain
    objects: finite maps from property names to values. *)
Abbreviation JsObject := (gmap string JsValue).
Abbreviation ScopedVars := (gmap string JsValue).

(** [o.k]: reading a missing property gives [undefined]. *)
Definition get (o : JsObject) (k : string) : JsValue :=
  default JUndefined (o !! k).

(** ToBoolean, as used by [if (v)], [!v] and [v || w]. *)
Definition truthy (v : JsValue) : bool :=
  match v with
  | JUndefined | JNull => false
  | JBool b => b
  | JNumber n => negb (n =? 0)%Z
  | JString s => negb (String.eqb s "")
  | JObject _ => true
  end.

(** [v === s] for a string literal [s]. *)
Definition strict_eq_string (v : JsValue) (s : string) : bool :=
  match v with
  | JString s' => String.eqb s' s
  | _ => false
  end.

(** ToString, as used by string concatenation and by property keys
    (objects print with the default [Object.prototype.toString]). *)
Definition to_string (v : JsValue) : string :=
  match v with
  | JUndefined => "undefined"
  | JNull => "null"
  | JBool true => "true"
  | JBool false => "false"
  | JNumber n => pretty n
  | JString s => s
  | JObject _ => "[object Object]"
  end.

(** [n.toString()] and [`${n}`] for an integer. *)
Definition number_toString (n : Z) : string := pretty n.

Definition number_or_undefined (n : option Z) : JsValue :=
  match n with
  | Some z => JNumber z
  | None => JUndefined
  end.

Definition ExpressionDatasourceID : string := "__expr__".

(** ** The configuration store, [config]

    [config.datasources] is read as the finite map of its own
    properties. *)

Record DataSourceInstanceSettings := {
  settings_id : Z;
  settings_name : string;
}.

Record Config := {
  (** [config.bootData.user.orgId] *)
  bootData_user_orgId : Z;
  defaultDatasource : string;
  datasources : gmap string DataSourceInstanceSettings;
}.

(** ** Requests and payloads *)

(** A moment in time; [valueOf] is its epoch in milliseconds. *)
Record DateTime := { valueOf : Z }.

Record RawTimeRange := { raw_from : string; raw_to : string }.

Record TimeRange := {
  range_from : DateTime;
  range_to : DateTime;
  range_raw : RawTimeRange;
}.

Record Dashboard := { dashboard_timezone : string }.

(** [DataQueryRequest], with the fields that the class reads or writes; a
    field that may be missing at run time is an option. *)
Record DataQueryRequest := {
  requestId : string;
  interval : option string;
  intervalMs : option Z;
  maxDataPoints : option Z;
  range : option TimeRange;
  rangeRaw : option RawTimeRange;
  scopedVars : ScopedVars;
  targets : list JsObject;
  timezone : string;
  app : option string;
  startTime : Z;
}.

(** The annotation of an annotation request: its [enable] flag and the
    inline query [annotation.annotation]. *)
Record Annotation := {
  enable : bool;
  annotation_annotation : option JsObject;
}.

(** [AnnotationQueryRequest].  [interval], [intervalMs], [maxDataPoints],
    [app] and [isEditor] are read through [options as any] or carried over
    by the spread [...rest]. *)
Record AnnotationQueryRequest := {
  options_range : option TimeRange;
  options_rangeRaw : option RawTimeRange;
  options_interval : option string;
  options_intervalMs : option Z;
  options_maxDataPoints : option Z;
  options_app : option string;
  options_isEditor : bool;
  options_dashboard : Dashboard;
  options_annotation : Annotation;
}.

(** The object [body] that [query] posts. *)
Record Body := {
  body_queries : list JsObject;
  body_range : option TimeRange;
  body_from : option string;
  body_to : option string;
}.

(** The options object handed to [getBackendSrv().fetch]. *)
Record BackendSrvRequest := {
  fetch_url : string;
  fetch_method : string;
  fetch_data : Body;
  fetch_requestId : string;
}.

(** ** Observables

    A finite observable: the values it emits, then completion or an
    error. *)

Inductive Terminal (E : Type) : Type :=
  | Completed
  | Errored (err : E).
Arguments Completed {E}.
Arguments Errored {E} err.

Record Observable (E A : Type) := {
  emitted : list A;
  terminal : Terminal E;
}.
Arguments emitted {E A} _.
Arguments terminal {E A} _.

(** rxjs [of(x)] *)
Definition rx_of {E A} (x : A) : Observable E A :=
  {| emitted := [x]; terminal := Completed |}.

(** rxjs [map(f)] *)
Definition rx_map {E A B} (f : A → B) (o : Observable E A) : Observable E B :=
  {| emitted := f <$> emitted o; terminal := terminal o |}.

(** rxjs [catchError(h)]: on an error, continue with the observable that
    the handler returns. *)
Definition rx_catchError {E A} (h : E → Observable E A) (o : Observable E A)
  : Observable E A :=
  match terminal o with
  | Completed => o
  | Errored err =>
      {| emitted := emitted o ++ emitted (h err); terminal := terminal (h err) |}
  end.

(** A settled promise. *)
Inductive Promise (E A : Type) : Type :=
  | Resolved (v : A)
  | Rejected (err : E).
Arguments Resolved {E A} v.
Arguments Rejected {E A} err.

(** rxjs [toPromise()]: resolves with the last emitted value ([undefined],
    here [None], when nothing was emitted) and rejects on an error. *)
Definition toPromise {E A} (o : Observable E A) : Promise E (option A) :=
  match terminal o with
  | Completed => Resolved (last (emitted o))
  | Errored err => Rejected err
  end.

(** ** Responses *)

Record DataQueryError := { error_message : string }.

(** Modelled from the spec: the type [DataQueryResponse] is imported from
    [@grafana/data] and is not part of the listing.  The result has one
    shape for success and failure: a collection of frames [data] (read
    with [rsp.data?.length], so possibly missing) and the failure
    description [error], which is the discriminant. *)
Record DataQueryResponse (DataFrame : Type) := {
  data : option (list DataFrame);
  error : option DataQueryError;
}.
Arguments data {DataFrame} _.
Arguments error {DataFrame} _.

(** A NormalizedResult-failure is a response that carries an error. *)
Definition is_failure {DataFrame} (rsp : DataQueryResponse DataFrame) : Prop :=
  is_Some (error rsp).

(** The literal [{ data: [] }]. *)
Definition empty_response {DataFrame} : DataQueryResponse DataFrame :=
  {| data := Some []; error := None |}.

(** ** Effects

    A method runs to an outcome and leaves a trace of the calls the
    specification speaks about: the invocations of the substitution hook
    and the calls to the transport. *)

Inductive Event : Type :=
  | CallApplyTemplateVariables (query : JsObject) (vars : ScopedVars)
  | CallFetch (options : BackendSrvRequest)
  | WriteLastAnnotationQuery.

(** What a [throw] or a rejection carries: a JavaScript error object or a
    raw value coming from the transport. *)
Inductive Exn (Raw : Type) : Type :=
  | Error (message : string)
  | TypeError (message : string)
  | RawError (raw : Raw).
Arguments Error {Raw} message.
Arguments TypeError {Raw} message.
Arguments RawError {Raw} raw.

Inductive Outcome (E A : Type) : Type :=
  | Ret (v : A)
  | Throw (exn : E).
Arguments Ret {E A} v.
Arguments Throw {E A} exn.

Definition M (E A : Type) : Type := list Event * Outcome E A.

Definition ret {E A} (v : A) : M E A := ([], Ret v).
Definition throw {E A} (exn : E) : M E A := ([], Throw exn).
Definition emit {E} (ev : Event) : M E () := ([ev], Ret ()).

Definition bind {E A B} (m : M E A) (k : A → M E B) : M E B :=
  match m.2 with
  | Ret v => (m.1 ++ (k v).1, (k v).2)
  | Throw exn => (m.1, Throw exn)
  end.

Notation "'let*' x := m 'in' k" := (bind m (fun x => k))
  (at level 10, x name, m at level 100, k at level 200).

(** An [async] function settles a promise: a value returned resolves it, a
    [throw] rejects it. *)
Definition async {E A} (m : M E A) : list Event * Promise E A :=
  (m.1, match m.2 with Ret v => Resolved v | Throw exn => Rejected exn end).

(** Continuing after a promise of the transport's error type. *)
Definition await {Raw A} (p : Promise Raw A) : M (Exn Raw) A :=
  match p with
  | Resolved v => ret v
  | Rejected err => throw (RawError err)
  end.

(** [xs.map(f)] for a callback with effects: left to right, stopping at the
    first throw. *)
Fixpoint mapM {E A B} (f : A → M E B) (xs : list A) : M E (list B) :=
  match xs with
  | [] => ret []
  | x :: xs' =>
      let* y := f x in
      let* ys := mapM f xs' in
      ret (y :: ys)
  end.

(** ** The class *)

(** An instance: its [id] and the overridable hooks.  The type [Prep] of
    the preparation hook differs between the two revisions. *)
Record DataSourceWithBackend (Prep : Type) := {
  this_id : Z;
  filterQuery : option (JsObject → bool);
  applyTemplateVariables : JsObject → ScopedVars → JsObject;
  prepareAnnotationQuery : option Prep;
}.
Arguments this_id {Prep} _.
Arguments filterQuery {Prep} _.
Arguments applyTemplateVariables {Prep} _ _ _.
Arguments prepareAnnotationQuery {Prep} _.

(** The body of [applyTemplateVariables] in the class itself. *)
Definition default_applyTemplateVariables (query : JsObject) (vars : ScopedVars)
  : JsObject := query.

(** The class as it stands, nothing overridden. *)
Definition base_datasource {Prep} (id : Z) : DataSourceWithBackend Prep :=
  {| this_id := id;
     filterQuery := None;
     applyTemplateVariables := default_applyTemplateVariables;
     prepareAnnotationQuery := None |}.

(** The test [q.datasource === ExpressionDatasourceID]. *)
Definition is_expression (q : JsObject) : bool :=
  strict_eq_string (get q "datasource") ExpressionDatasourceID.

Section Query.
Context {Raw DataFrame Prep : Type}.

(** The collaborators: the configuration store, the transport
    [getBackendSrv().fetch] and the decoding routine. *)
Variable config : Config.
Variable fetch : BackendSrvRequest → Observable Raw Raw.
Variable toDataQueryResponse : Raw → DataQueryResponse DataFrame.

Variable this : DataSourceWithBackend Prep.

(** [request.targets], filtered when the hook is defined. *)
Definition filtered_targets (request : DataQueryRequest) : list JsObject :=
  match filterQuery this with
  | Some f => List.filter f (targets request)
  | None => targets request
  end.

(** The constant [dsName], as a property key of [config.datasources]. *)
Definition dsName (q : JsObject) : string :=
  if strict_eq_string (get q "datasource") "default"
  then defaultDatasource config
  else to_string (get q "datasource").

(** The block [if (q.datasource) { ... }] of the callback: the id that
    [datasourceId] holds after it. *)
Definition resolve_datasourceId (q : JsObject) : M (Exn Raw) Z :=
  if truthy (get q "datasource") then
    match datasources config !! dsName q with
    | None => throw (Error ("Unknown Datasource: " +:+ to_string (get q "datasource")))
    | Some ds => ret (settings_id ds)
    end
  else ret (this_id this).

(** The expression branch of the callback: [{ ...q, datasourceId, orgId }]. *)
Definition expression_entry (q : JsObject) : JsObject :=
  <["orgId" := JNumber (bootData_user_orgId config)]>
    (<["datasourceId" := JNumber (this_id this)]> q).

(** The other branch:
    [{ ...substituted, datasourceId, intervalMs, maxDataPoints, orgId }]. *)
Definition backend_entry (request : DataQueryRequest) (substituted : JsObject)
    (datasourceId : Z) : JsObject :=
  <["orgId" := JNumber (bootData_user_orgId config)]>
    (<["maxDataPoints" := number_or_undefined (maxDataPoints request)]>
      (<["intervalMs" := number_or_undefined (intervalMs request)]>
        (<["datasourceId" := JNumber datasourceId]> substituted))).

(** The callback of [targets.map] in [query]. *)
Definition query_target (request : DataQueryRequest) (q : JsObject)
  : M (Exn Raw) JsObject :=
  if is_expression q then
    ret (expression_entry q)
  else
    let* datasourceId := resolve_datasourceId q in
    let* _ := emit (CallApplyTemplateVariables q (scopedVars request)) in
    ret (backend_entry request
           (applyTemplateVariables this q (scopedVars request)) datasourceId).

(** [body], with the range block when [range] is there. *)
Definition query_body (request : DataQueryRequest) (queries : list JsObject) : Body :=
  match range request with
  | Some r =>
      {| body_queries := queries;
         body_range := Some r;
         body_from := Some (number_toString (valueOf (range_from r)));
         body_to := Some (number_toString (valueOf (range_to r))) |}
  | None =>
      {| body_queries := queries;
         body_range := None;
         body_from := None;
         body_to := None |}
  end.

Definition query_fetch_options (request : DataQueryRequest) (queries : list JsObject)
  : BackendSrvRequest :=
  {| fetch_url := "/api/ds/query";
     fetch_method := "POST";
     fetch_data := query_body request queries;
     fetch_requestId := requestId request |}.

(** [.pipe(map(toDataQueryResponse), catchError(err => of(toDataQueryResponse(err))))] *)
Definition query_pipe (o : Observable Raw Raw)
  : Observable Raw (DataQueryResponse DataFrame) :=
  rx_catchError (fun err => rx_of (toDataQueryResponse err))
    (rx_map toDataQueryResponse o).

Definition query (request : DataQueryRequest)
  : M (Exn Raw) (Observable Raw (DataQueryResponse DataFrame)) :=
  let* queries := mapM (query_target request) (filtered_targets request) in
  if (length queries =? 0)%nat then
    ret (rx_of empty_response)
  else
    let options := query_fetch_options request queries in
    let* _ := emit (CallFetch options) in
    ret (query_pipe (fetch options)).

End Query.

(** ** Annotation queries *)

(** [v || d] on an optional string and on an optional number. *)
Definition string_or (v : option string) (d : string) : string :=
  match v with
  | Some s => if String.eqb s "" then d else s
  | None => d
  end.

Definition number_or (v : option Z) (d : Z) : Z :=
  match v with
  | Some n => if (n =? 0)%Z then d else n
  | None => d
  end.

Record AnnotationsResult (AnnotationEvent : Type) := {
  events : list AnnotationEvent;
}.
Arguments events {AnnotationEvent} _.

(** *** First revision: the hook returns [{ query, processor }] *)
Module Processor.

Record Prepared (DataFrame AnnotationEvent : Type) := {
  prepared_query : option JsObject;
  prepared_processor : option (DataQueryResponse DataFrame → list AnnotationEvent);
}.
Arguments prepared_query {DataFrame AnnotationEvent} _.
Arguments prepared_processor {DataFrame AnnotationEvent} _.

Section AnnotationQuery.
Context {Raw DataFrame AnnotationEvent : Type}.

Abbreviation Prep := (AnnotationQueryRequest → Prepared DataFrame AnnotationEvent).

Variable config : Config.
Variable fetch : BackendSrvRequest → Observable Raw Raw.
Variable toDataQueryResponse : Raw → DataQueryResponse DataFrame.
Variable getAnnotationsFromFrame : DataFrame → AnnotationsResult AnnotationEvent.

Variable this : DataSourceWithBackend Prep.

(** The request given to [this.query]:
    [{ ...rest, requestId, startTime, scopedVars: {}, timezone, targets }]. *)
Definition annotation_request (options : AnnotationQueryRequest)
    (startTime : Z) (query : JsObject) : DataQueryRequest :=
  {| requestId := "anno-" +:+ number_toString startTime;
     interval := options_interval options;
     intervalMs := options_intervalMs options;
     maxDataPoints := options_maxDataPoints options;
     range := options_range options;
     rangeRaw := options_rangeRaw options;
     scopedVars := ∅;
     targets := [query];
     timezone := dashboard_timezone (options_dashboard options);
     app := options_app options;
     startTime := startTime |}.

(** The callback of [.then]. *)
Definition on_response
    (processor : option (DataQueryResponse DataFrame → list AnnotationEvent))
    (rsp : option (DataQueryResponse DataFrame))
  : M (Exn Raw) (list AnnotationEvent) :=
  match rsp with
  | None => throw (TypeError "Cannot read property 'data' of undefined")
  | Some rsp =>
      match data rsp with
      | Some (frame :: _) =>
          match processor with
          | Some process => ret (process rsp)
          | None => ret (events (getAnnotationsFromFrame frame))
          end
      | _ => ret []
      end
  end.

(** [now] is the reading of [Date.now()]. *)
Definition annotationQuery (options : AnnotationQueryRequest) (now : Z)
  : list Event * Promise (Exn Raw) (list AnnotationEvent) :=
  async
    match prepareAnnotationQuery this with
    | None => ret []
    | Some prepare =>
        if negb (enable (options_annotation options)) then ret []
        else
          let prepared := prepare options in
          match prepared_query prepared with
          | None => ret []
          | Some query' =>
              let startTime := now in
              let* o := query config fetch toDataQueryResponse this
                          (annotation_request options startTime query') in
              let* rsp := await (toPromise o) in
              on_response (prepared_processor prepared) rsp
          end
    end.

End AnnotationQuery.

End Processor.

(** *** Second revision: the hook returns the query, with the inline query
    of the annotation as the fallback *)
Module Inline.

Section AnnotationQuery.
Context {Raw DataFrame AnnotationEvent : Type}.

Abbreviation Prep := (AnnotationQueryRequest → option JsObject).

Variable config : Config.
Variable fetch : BackendSrvRequest → Observable Raw Raw.
Variable toDataQueryResponse : Raw → DataQueryResponse DataFrame.
Variable getAnnotationsFromFrame : DataFrame → AnnotationsResult AnnotationEvent.

Variable this : DataSourceWithBackend Prep.

(** The request given to [this.query], written field by field. *)
Definition annotation_request (options : AnnotationQueryRequest)
    (startTime : Z) (query : JsObject) : DataQueryRequest :=
  {| requestId := "anno-" +:+ number_toString startTime;
     range := options_range options;
     rangeRaw := options_rangeRaw options;
     interval := Some (string_or (options_interval options) "1m");
     intervalMs := Some (number_or (options_intervalMs options) 60000);
     startTime := startTime;
     scopedVars := ∅;
     app := Some "dash-anno";
     timezone := dashboard_timezone (options_dashboard options);
     targets := [query];
     maxDataPoints := None |}.

(** The query that the guard looks at. *)
Definition resolved_query (options : AnnotationQueryRequest) : option JsObject :=
  match prepareAnnotationQuery this with
  | Some prepare => prepare options
  | None => annotation_annotation (options_annotation options)
  end.

(** The callback of [.then]; in the editor it also stores [info] in
    [window.lastAnnotationQuery]. *)
Definition on_response (options : AnnotationQueryRequest)
    (rsp : option (DataQueryResponse DataFrame))
  : M (Exn Raw) (list AnnotationEvent) :=
  match rsp with
  | None => throw (TypeError "Cannot read property 'data' of undefined")
  | Some rsp =>
      match data rsp with
      | Some (frame :: _) =>
          let info := getAnnotationsFromFrame frame in
          let* _ := (if options_isEditor options
                     then emit WriteLastAnnotationQuery else ret ()) in
          ret (events info)
      | _ => ret []
      end
  end.

(** [now] is the reading of [Date.now()]. *)
Definition annotationQuery (options : AnnotationQueryRequest) (now : Z)
  : list Event * Promise (Exn Raw) (list AnnotationEvent) :=
  async
    match resolved_query options with
    | None => ret []
    | Some query' =>
        if negb (enable (options_annotation options)) then ret []
        else
          let startTime := now in
          let* o := query config fetch toDataQueryResponse this
                      (annotation_request options startTime query') in
          let* rsp := await (toPromise o) in
          on_response options rsp
    end.

End AnnotationQuery.

End Inline.

(** ** Resources and health *)

(** The enum [HealthStatus] and the strings of its members. *)
Module HealthStatus.

Inductive t : Type := Unknown | OK | Error.

Definition value (status : t) : string :=
  match status with
  | Unknown => "UNKNOWN"
  | OK => "OK"
  | Error => "ERROR"
  end.

End HealthStatus.

(** The options object handed to [getBackendSrv().request]. *)
Record RequestOptions := {
  request_method : string;
  request_url : string;
  showErrorAlert : bool;
}.

(** The calls to [getBackendSrv()] other than [fetch]. *)
Inductive BackendCall : Type :=
  | CallGet (url : string) (params : JsValue)
  | CallPost (url : string) (data : JsValue)
  | CallRequest (options : RequestOptions).

(** The promise-based part of [getBackendSrv()]; replies and rejection
    values are arbitrary values. *)
Record BackendSrv := {
  srv_get : string → JsValue → Promise JsValue JsValue;
  srv_post : string → JsValue → Promise JsValue JsValue;
  srv_request : RequestOptions → Promise JsValue JsValue;
}.

(** [v.k] on an arbitrary value, for a property name that no prototype
    defines ([data], [status], [message]): a TypeError on [undefined] and
    [null], [undefined] on the other primitives. *)
Definition member (v : JsValue) (k : string) : Outcome (Exn JsValue) JsValue :=
  match v with
  | JUndefined | JNull =>
      Throw (TypeError ("Cannot read property '" +:+ k +:+ "' of " +:+ to_string v))
  | JObject fields => Ret (get fields k)
  | _ => Ret JUndefined
  end.

(** The own properties of a string: its characters under their indices. *)
Fixpoint string_entries (i : nat) (s : string) : JsObject :=
  match s with
  | EmptyString => ∅
  | String c s' => <[pretty i := JString (String c EmptyString)]> (string_entries (S i) s')
  end.

(** [{ ...v }]: the own properties of an object or a string, nothing for
    the other values. *)
Definition spread (v : JsValue) : JsObject :=
  match v with
  | JObject fields => fields
  | JString s => string_entries 0 s
  | _ => ∅
  end.

(** The promise of the transport, as the promise of an [async] method that
    returns it. *)
Definition adopt (p : Promise JsValue JsValue) : Promise (Exn JsValue) JsValue :=
  match p with
  | Resolved v => Resolved v
  | Rejected err => Rejected (RawError err)
  end.

(** [p.then(cb)] *)
Definition promise_then {E A B} (p : Promise E A) (cb : A → Outcome E B) : Promise E B :=
  match p with
  | Resolved v =>
      match cb v with
      | Ret w => Resolved w
      | Throw exn => Rejected exn
      end
  | Rejected err => Rejected err
  end.

(** [p.catch(cb)], the callback getting the raw rejection value. *)
Definition promise_catch {A} (p : Promise JsValue A)
    (cb : JsValue → Outcome (Exn JsValue) A) : Promise (Exn JsValue) A :=
  match p with
  | Resolved v => Resolved v
  | Rejected err =>
      match cb err with
      | Ret w => Resolved w
      | Throw exn => Rejected exn
      end
  end.

Section Facade.
Context {Prep : Type}.
Variable backendSrv : BackendSrv.
Variable this : DataSourceWithBackend Prep.

(** [`/api/datasources/${this.id}/resources/${path}`] *)
Definition resource_url (path : string) : string :=
  "/api/datasources/" +:+ number_toString (this_id this) +:+ "/resources/" +:+ path.

(** [`/api/datasources/${this.id}/health`] *)
Definition health_url : string :=
  "/api/datasources/" +:+ number_toString (this_id this) +:+ "/health".

Definition getResource (path : string) (params : JsValue)
  : list BackendCall * Promise (Exn JsValue) JsValue :=
  ([CallGet (resource_url path) params],
   adopt (srv_get backendSrv (resource_url path) params)).

Definition postResource (path : string) (body : JsValue)
  : list BackendCall * Promise (Exn JsValue) JsValue :=
  ([CallPost (resource_url path) (JObject (spread body))],
   adopt (srv_post backendSrv (resource_url path) (JObject (spread body)))).

Definition callHealthCheck : list BackendCall * Promise (Exn JsValue) JsValue :=
  let options :=
    {| request_method := "GET"; request_url := health_url; showErrorAlert := false |} in
  ([CallRequest options],
   promise_catch
     (promise_then (srv_request backendSrv options) (λ v, Ret v))
     (λ err, member err "data")).

(** The object that [testDatasource] resolves to. *)
Definition test_result (status : string) (message : JsValue) : JsObject :=
  <["message" := message]> {[ "status" := JString status ]}.

Definition testDatasource : list BackendCall * Promise (Exn JsValue) JsObject :=
  (callHealthCheck.1,
   promise_then callHealthCheck.2 (λ res,
     match member res "status" with
     | Throw exn => Throw exn
     | Ret status =>
         if strict_eq_string status (HealthStatus.value HealthStatus.OK) then
           match member res "message" with
           | Ret message => Ret (test_result "success" message)
           | Throw exn => Throw exn
           end
         else
           match member res "message" with
           | Ret message => Ret (test_result "fail" message)
           | Throw exn => Throw exn
           end
     end)).

End Facade.

(** ** Vocabulary of the properties *)

(** The invocations of the substitution hook recorded in a trace. *)
Definition substitution_calls (tr : list Event) : list (JsObject * ScopedVars) :=
  omap (λ ev, match ev with
              | CallApplyTemplateVariables q vars => Some (q, vars)
              | _ => None
              end) tr.

(** The transport calls recorded in a trace. *)
Definition transport_calls (tr : list Event) : list BackendSrvRequest :=
  omap (λ ev, match ev with CallFetch options => Some options | _ => None end) tr.

(** A target whose reference names a backend that the table of
    [config.datasources] does not hold. *)
Definition unknown_datasource (config : Config) (q : JsObject) : bool :=
  negb (is_expression q) && truthy (get q "datasource") &&
  match datasources config !! dsName config q with
  | None => true
  | Some _ => false
  end.

(** The error that [query] throws for such a target. *)
Definition unknown_datasource_error {Raw} (q : JsObject) : Exn Raw :=
  Error ("Unknown Datasource: " +:+ to_string (get q "datasource")).

(** The events read off a response by the callback of the first revision:
    none without a frame, else those of the processor or of the first
    frame. *)
Definition processor_events {DataFrame AnnotationEvent}
    (getAnnotationsFromFrame : DataFrame → AnnotationsResult AnnotationEvent)
    (processor : option (DataQueryResponse DataFrame → list AnnotationEvent))
    (rsp : DataQueryResponse DataFrame) : list AnnotationEvent :=
  match data rsp with
  | Some (frame :: _) =>
      match processor with
      | Some process => process rsp
      | None => events (getAnnotationsFromFrame frame)
      end
  | _ => []
  end.

(** The same for the second revision: none without a frame, else those of
    the first frame. *)
Definition frame_events {DataFrame AnnotationEvent}
    (getAnnotationsFromFrame : DataFrame → AnnotationsResult AnnotationEvent)
    (rsp : DataQueryResponse DataFrame) : list AnnotationEvent :=
  match data rsp with
  | Some (frame :: _) => events (getAnnotationsFromFrame frame)
  | _ => []
  end.

(** A response without a frame. *)
Definition no_frames {DataFrame} (rsp : DataQueryResponse DataFrame) : Prop :=
  data rsp = None ∨ data rsp = Some [].

(** What the preparation hook yields, when there is one. *)
Definition processor_hook_query {DataFrame AnnotationEvent}
    (this : DataSourceWithBackend
              (AnnotationQueryRequest → Processor.Prepared DataFrame AnnotationEvent))
    (options : AnnotationQueryRequest) : option JsObject :=
  match prepareAnnotationQuery this with
  | Some prepare => Processor.prepared_query (prepare options)
  | None => None
  end.

Definition inline_hook_query
    (this : DataSourceWithBackend (AnnotationQueryRequest → option JsObject))
    (options : AnnotationQueryRequest) : option JsObject :=
  match prepareAnnotationQuery this with
  | Some prepare => prepare options
  | None => None
  end.

(** Whether the filter hook, when there is one, keeps a target. *)
Definition keeps_target {Prep} (this : DataSourceWithBackend Prep) (q : JsObject) : bool :=
  match filterQuery this with
  | Some f => f q
  | None => true
  end.

(** A response with at least one frame. *)
Definition has_frame {DataFrame} (rsp : DataQueryResponse DataFrame) : Prop :=
  ∃ frame frames, data rsp = Some (frame :: frames).

(** The response with which the promise of [query] resolves after a
    transport call: the decoding of the error, or of the last reply, or
    nothing when the transport completes without a reply. *)
Definition settled_response {Raw DataFrame}
    (toDataQueryResponse : Raw → DataQueryResponse DataFrame)
    (o : Observable Raw Raw) : option (DataQueryResponse DataFrame) :=
  match terminal o with
  | Errored err => Some (toDataQueryResponse err)
  | Completed => toDataQueryResponse <$> last (emitted o)
  end.

(** ** A sample installation

    Concrete collaborators and requests, used to run the methods. *)
Module Sample.

(** A raw reply or error of the transport: an HTTP status, the frames in
    its results and the error its results report. *)
Record Reply := {
  status : Z;
  results_frames : list string;
  results_error : option string;
}.

(** A decoding routine: the frames of the reply are kept, and an error is
    recorded when the results report one or the status is not 200. *)
Definition toDataQueryResponse (res : Reply) : DataQueryResponse string :=
  {| data := Some (results_frames res);
     error :=
       match results_error res with
       | Some msg => Some {| error_message := msg |}
       | None =>
           if (status res =? 200)%Z then None
           else Some {| error_message := "Request failed" |}
       end |}.

(** One event per frame, named after it. *)
Definition getAnnotationsFromFrame (frame : string) : AnnotationsResult string :=
  {| events := ["event of " +:+ frame] |}.

Definition config : Config :=
  {| bootData_user_orgId := 1;
     defaultDatasource := "gdev-testdata";
     datasources :=
       {[ "gdev-testdata" := {| settings_id := 7; settings_name := "gdev-testdata" |};
          "gdev-prometheus" := {| settings_id := 9; settings_name := "gdev-prometheus" |} ]} |}.

Definition ok_reply : Reply :=
  {| status := 200; results_frames := ["A"]; results_error := None |}.

(** A connection that could not be made. *)
Definition network_error : Reply :=
  {| status := 0; results_frames := []; results_error := None |}.

(** A 400 reply whose results hold a frame next to an error. *)
Definition partial_failure : Reply :=
  {| status := 400; results_frames := ["A"]; results_error := Some "query B failed" |}.

Definition fetch_ok (_ : BackendSrvRequest) : Observable Reply Reply :=
  {| emitted := [ok_reply]; terminal := Completed |}.

Definition fetch_failing (err : Reply) (_ : BackendSrvRequest) : Observable Reply Reply :=
  {| emitted := []; terminal := Errored err |}.

Definition plain_target : JsObject := {[ "refId" := JString "A" ]}.

Definition expression_target : JsObject :=
  {[ "refId" := JString "B"; "datasource" := JString "__expr__" ]}.



Definition hidden_target : JsObject :=
  {[ "refId" := JString "E"; "hide" := JBool true ]}.

Definition time_range : TimeRange :=
  {| range_from := {| valueOf := 1600000000000 |};
     range_to := {| valueOf := 1600000360000 |};
     range_raw := {| raw_from := "now-6m"; raw_to := "now" |} |}.

Definition request (ts : list JsObject) : DataQueryRequest :=
  {| requestId := "Q100";
     interval := Some "30s";
     intervalMs := Some 30000;
     maxDataPoints := Some 500;
     range := Some time_range;
     rangeRaw := None;
     scopedVars := {[ "__interval" := JString "30s" ]};
     targets := ts;
     timezone := "browser";
     app := Some "dashboard";
     startTime := 1600000360000 |}.

(** A plugin that skips hidden queries and leaves the rest of the class
    as it is. *)
Definition skip_hidden {Prep} : DataSourceWithBackend Prep :=
  {| this_id := 3;
     filterQuery := Some (λ q, negb (truthy (get q "hide")));
     applyTemplateVariables := default_applyTemplateVariables;
     prepareAnnotationQuery := None |}.

Definition annotation_options (enabled : bool) (inline : option JsObject)
  : AnnotationQueryRequest :=
  {| options_range := Some time_range;
     options_rangeRaw := None;
     options_interval := None;
     options_intervalMs := None;
     options_maxDataPoints := None;
     options_app := None;
     options_isEditor := false;
     options_dashboard := {| dashboard_timezone := "utc" |};
     options_annotation := {| enable := enabled; annotation_annotation := inline |} |}.

(** A first-revision plugin whose hook hands back the inline query. *)
Definition with_processor_hook
  : DataSourceWithBackend (AnnotationQueryRequest → Processor.Prepared string string) :=
  {| this_id := 3;
     filterQuery := None;
     applyTemplateVariables := default_applyTemplateVariables;
     prepareAnnotationQuery :=
       Some (λ options,
         {| Processor.prepared_query := annotation_annotation (options_annotation options);
            Processor.prepared_processor := None |}) |}.

(** The requests of the sample runs and the calls to the transport that
    they lead to. *)
Definition plain_call : BackendSrvRequest :=
  query_fetch_options (request [plain_target])
    [backend_entry config (request [plain_target]) plain_target 3].

Definition mixed_request : DataQueryRequest :=
  request [hidden_target; expression_target; plain_target].

Definition mixed_call : BackendSrvRequest :=
  query_fetch_options mixed_request
    [expression_entry (Prep:=unit) config skip_hidden expression_target;
     backend_entry config mixed_request plain_target 3].


Definition clock : Z := 1600000000123.

Definition enabled_annotation : AnnotationQueryRequest :=
  annotation_options true (Some plain_target).

Definition processor_call : BackendSrvRequest :=
  let request := Processor.annotation_request enabled_annotation clock plain_target in
  query_fetch_options request [backend_entry config request plain_target 3].

Definition inline_call : BackendSrvRequest :=
  let request := Inline.annotation_request enabled_annotation clock plain_target in
  query_fetch_options request [backend_entry config request plain_target 3].

End Sample.

(** * Properties *)

(** ** The effect layer *)

Section Effects.
Context {E A B : Type}.
Implicit Types (f : A → M E B) (xs : list A).

Lemma bind_Ret (m : M E A) (k : A → M E B) tr v :
  m = (tr, Ret v) → bind m k = (tr ++ (k v).1, (k v).2).
Proof. by intros ->. Qed.

Lemma bind_Throw (m : M E A) (k : A → M E B) tr exn :
  m = (tr, Throw exn) → bind m k = (tr, Throw exn).
Proof. by intros ->. Qed.

Lemma bind_ret_l (v : A) (k : A → M E B) : bind (ret v) k = k v.
Proof. unfold bind, ret. simpl. by destruct (k v). Qed.

Lemma mapM_cons f x xs :
  mapM f (x :: xs) =
    match (f x).2 with
    | Ret y =>
        match (mapM f xs).2 with
        | Ret ys => ((f x).1 ++ (mapM f xs).1, Ret (y :: ys))
        | Throw exn => ((f x).1 ++ (mapM f xs).1, Throw exn)
        end
    | Throw exn => ((f x).1, Throw exn)
    end.
Proof.
  simpl. unfold bind at 1.
  destruct (f x) as [t [y|exn]]; simpl; [|done].
  unfold bind, ret. destruct (mapM f xs) as [t' [ys|exn]]; simpl; [|done].
  by rewrite app_nil_r.
Qed.

(** A run of [mapM] that returns has visited every element, in order. *)
Lemma mapM_Ret f xs tr ys :
  mapM f xs = (tr, Ret ys) →
  tr = concat ((λ x, (f x).1) <$> xs) ∧ Forall2 (λ x y, (f x).2 = Ret y) xs ys.
Proof.
  revert tr ys. induction xs as [|x xs IH]; intros tr ys.
  - simpl. intros [= <- <-]. by split; [|constructor].
  - rewrite mapM_cons.
    destruct (f x).2 as [y|exn] eqn:Hx; [|done].
    destruct (mapM f xs) as [t' [ys'|exn]] eqn:Hxs; simpl; [|done].
    intros [= <- <-]. destruct (IH _ _ eq_refl) as [-> HF].
    split; [done|]. by constructor.
Qed.

(** A run of [mapM] over elements that all return. *)
Lemma mapM_all_Ret f xs ys :
  Forall2 (λ x y, (f x).2 = Ret y) xs ys →
  mapM f xs = (concat ((λ x, (f x).1) <$> xs), Ret ys).
Proof.
  induction 1 as [|x y xs ys Hx _ IH]; [done|].
  rewrite mapM_cons, Hx, IH. done.
Qed.

(** [mapM] stops at the first element whose callback throws. *)
Lemma mapM_first_Throw f l1 x l2 ys exn :
  Forall2 (λ x y, (f x).2 = Ret y) l1 ys →
  (f x).2 = Throw exn →
  mapM f (l1 ++ x :: l2) = (concat ((λ x, (f x).1) <$> l1) ++ (f x).1, Throw exn).
Proof.
  intros HF Hx. induction HF as [|x' y l1 ys Hx' _ IH].
  - rewrite app_nil_l, mapM_cons, Hx. done.
  - rewrite <-app_comm_cons, mapM_cons, Hx', IH. simpl.
    by rewrite app_assoc.
Qed.

(** Every event of a run of [mapM] comes from one callback. *)
Lemma mapM_trace f xs ev :
  ev ∈ (mapM f xs).1 → ∃ x, x ∈ xs ∧ ev ∈ (f x).1.
Proof.
  induction xs as [|x xs IH].
  - simpl. by intros ?%elem_of_nil.
  - rewrite mapM_cons.
    destruct (f x).2 as [y|exn] eqn:Hx.
    + destruct (mapM f xs).2 as [ys|exn]; simpl;
        (intros [Hin|Hin]%elem_of_app;
         [exists x; split; [left|done]
         |destruct (IH Hin) as (x' & Hx' & Hev); exists x'; split; [by right|done]]).
    + simpl. intros Hin. exists x. split; [left|done].
Qed.

End Effects.

(** ** The method [query] *)


Lemma transport_calls_app tr1 tr2 :
  transport_calls (tr1 ++ tr2) = transport_calls tr1 ++ transport_calls tr2.
Proof. apply omap_app. Qed.

Lemma substitution_calls_app tr1 tr2 :
  substitution_calls (tr1 ++ tr2) = substitution_calls tr1 ++ substitution_calls tr2.
Proof. apply omap_app. Qed.

Lemma elem_of_transport_calls tr options :
  options ∈ transport_calls tr ↔ CallFetch options ∈ tr.
Proof.
  unfold transport_calls. rewrite list_elem_of_omap. split.
  - intros ([]&Hin&Heq); simplify_eq. done.
  - intros Hin. by exists (CallFetch options).
Qed.

Section QueryFacts.
Context {Raw DataFrame Prep : Type}.
Variable config : Config.
Variable fetch : BackendSrvRequest → Observable Raw Raw.
Variable toDataQueryResponse : Raw → DataQueryResponse DataFrame.
Variable this : DataSourceWithBackend Prep.

Local Abbreviation this_query := (query config fetch toDataQueryResponse this).
Local Abbreviation this_query_target := (@query_target Raw Prep config this).
Local Abbreviation this_resolve_datasourceId := (@resolve_datasourceId Raw Prep config this).
Local Abbreviation this_query_pipe := (query_pipe toDataQueryResponse).

Lemma resolve_datasourceId_trace q : (this_resolve_datasourceId q).1 = [].
Proof.
  unfold resolve_datasourceId.
  destruct (truthy _); [|done]. by destruct (datasources config !! _).
Qed.

(** The three ways the callback of [targets.map] can go. *)
Lemma query_target_cases request q :
  (is_expression q = true ∧
     this_query_target request q = ([], Ret (expression_entry config this q)))
  ∨ (is_expression q = false ∧ ∃ exn,
       (this_resolve_datasourceId q).2 = Throw exn ∧
       this_query_target request q = ([], Throw exn))
  ∨ (is_expression q = false ∧ ∃ id,
       (this_resolve_datasourceId q).2 = Ret id ∧
       this_query_target request q =
         ([CallApplyTemplateVariables q (scopedVars request)],
          Ret (backend_entry config request
                 (applyTemplateVariables this q (scopedVars request)) id))).
Proof.
  unfold query_target, is_expression.
  destruct (strict_eq_string _ ExpressionDatasourceID); [by left|right].
  pose proof (resolve_datasourceId_trace q) as Htr.
  destruct (this_resolve_datasourceId q) as [t [id|exn]] eqn:Hres; simpl in Htr; subst t.
  - right. split; [done|]. exists id. split; [done|].
    done.
  - left. split; [done|]. exists exn. split; [done|].
    done.
Qed.

(** The callback records nothing but the substitution of its own target
    with the variables of the request, and only off the expression
    branch. *)
Lemma query_target_trace request q ev :
  ev ∈ (this_query_target request q).1 →
  ev = CallApplyTemplateVariables q (scopedVars request) ∧ is_expression q = false.
Proof.
  destruct (query_target_cases request q)
    as [[_ ->]|[(_&exn&_&->)|(Hq&id&_&->)]]; simpl.
  - by intros ?%elem_of_nil.
  - by intros ?%elem_of_nil.
  - by intros ->%list_elem_of_singleton.
Qed.

Lemma mapM_query_target_no_fetch request ts :
  transport_calls (mapM (this_query_target request) ts).1 = [].
Proof.
  destruct (transport_calls _) as [|options l] eqn:Hcalls; [done|].
  assert (options ∈ transport_calls (mapM (this_query_target request) ts).1) as Hin
    by (rewrite Hcalls; left).
  apply elem_of_transport_calls, mapM_trace in Hin as (q & _ & Hin).
  by apply query_target_trace in Hin as [? _].
Qed.

(** [query], by the outcome of building the entries. *)
Lemma query_unfold request :
  this_query request =
    match mapM (this_query_target request) (filtered_targets this request) with
    | (tr, Throw exn) => (tr, Throw exn)
    | (tr, Ret []) => (tr, Ret (rx_of empty_response))
    | (tr, Ret (q :: qs)) =>
        (tr ++ [CallFetch (query_fetch_options request (q :: qs))],
         Ret (this_query_pipe (fetch (query_fetch_options request (q :: qs)))))
    end.
Proof.
  unfold query.
  destruct (mapM _ _) as [tr [[|q qs]|exn]]; unfold bind; simpl; [|done..].
  by rewrite app_nil_r.
Qed.

(** A transport call in the trace of [query] is its last event; it posts
    the entries built from the filtered targets and its observable is
    piped into the result. *)
Lemma query_fetch_inv request tr out options :
  this_query request = (tr, out) →
  CallFetch options ∈ tr →
  ∃ tr0 queries,
    mapM (this_query_target request) (filtered_targets this request) = (tr0, Ret queries) ∧
    options = query_fetch_options request queries ∧
    tr = tr0 ++ [CallFetch options] ∧
    out = Ret (this_query_pipe (fetch options)).
Proof.
  rewrite query_unfold.
  pose proof (mapM_query_target_no_fetch request (filtered_targets this request)) as Hno.
  destruct (mapM _ _) as [tr0 [[|q qs]|exn]] eqn:HmapM; simpl in Hno;
    intros [= <- <-] Hin.
  - apply elem_of_transport_calls in Hin. rewrite Hno in Hin. by apply elem_of_nil in Hin.
  - apply elem_of_app in Hin as [Hin|Hin].
    + apply elem_of_transport_calls in Hin. rewrite Hno in Hin. by apply elem_of_nil in Hin.
    + apply list_elem_of_singleton in Hin as [= ->]. by exists tr0, (q :: qs).
  - apply elem_of_transport_calls in Hin. rewrite Hno in Hin. by apply elem_of_nil in Hin.
Qed.

(** What [query_pipe] makes of the transport's observable. *)
Lemma query_pipe_emitted (o : Observable Raw Raw) :
  emitted (this_query_pipe o) =
    (toDataQueryResponse <$> emitted o) ++
    match terminal o with
    | Completed => []
    | Errored err => [toDataQueryResponse err]
    end.
Proof.
  unfold query_pipe, rx_catchError, rx_map; simpl.
  destruct (terminal o); simpl; [by rewrite app_nil_r|done].
Qed.

Lemma query_pipe_terminal (o : Observable Raw Raw) :
  terminal (this_query_pipe o) = Completed.
Proof.
  unfold query_pipe, rx_catchError, rx_map; simpl.
  by destruct (terminal o) eqn:Ho; simpl.
Qed.

Lemma query_pipe_failure (o : Observable Raw Raw) err :
  terminal o = Errored err →
  toPromise (this_query_pipe o) = Resolved (Some (toDataQueryResponse err)).
Proof.
  intros Ho. unfold toPromise.
  rewrite query_pipe_terminal, query_pipe_emitted, Ho.
  by rewrite last_snoc.
Qed.

End QueryFacts.

Section QueryTrace.
Context {Raw DataFrame Prep : Type}.
Variable config : Config.
Variable fetch : BackendSrvRequest → Observable Raw Raw.
Variable toDataQueryResponse : Raw → DataQueryResponse DataFrame.
Variable this : DataSourceWithBackend Prep.

Local Abbreviation this_query := (query config fetch toDataQueryResponse this).
Local Abbreviation this_query_target := (@query_target Raw Prep config this).

Lemma body_queries_query_body request queries :
  body_queries (query_body request queries) = queries.
Proof. unfold query_body. by destruct (range request). Qed.

(** The substitutions recorded by [query] are those recorded while the
    entries were built. *)
Lemma query_substitution_calls request :
  substitution_calls (this_query request).1 =
    substitution_calls (mapM (this_query_target request) (filtered_targets this request)).1.
Proof.
  rewrite query_unfold.
  destruct (mapM _ _) as [tr [[|q qs]|exn]]; simpl; [done| |done].
  rewrite substitution_calls_app. simpl. by rewrite app_nil_r.
Qed.

(** The transport is called at most once, and only after every entry has
    been built. *)
Lemma query_transport_calls request :
  transport_calls (this_query request).1 =
    match (mapM (this_query_target request) (filtered_targets this request)).2 with
    | Ret (q :: qs) => [query_fetch_options request (q :: qs)]
    | _ => []
    end.
Proof.
  rewrite query_unfold.
  pose proof (mapM_query_target_no_fetch (Raw:=Raw) config this request
                (filtered_targets this request)) as Hno.
  destruct (mapM _ _) as [tr [[|q qs]|exn]]; simpl in *; [done| |done].
  by rewrite transport_calls_app, Hno.
Qed.

Lemma substitution_calls_query_target request q :
  substitution_calls (this_query_target request q).1 =
    if is_expression q then []
    else match (this_query_target request q).2 with
         | Ret _ => [(q, scopedVars request)]
         | Throw _ => []
         end.
Proof.
  destruct (query_target_cases (Raw:=Raw) config this request q)
    as [[-> ->]|[(->&exn&_&->)|(->&id&_&->)]]; done.
Qed.

Lemma substitution_calls_mapM request ts queries :
  Forall2 (λ q entry, (this_query_target request q).2 = Ret entry) ts queries →
  substitution_calls (concat ((λ q, (this_query_target request q).1) <$> ts)) =
    (λ q, (q, scopedVars request)) <$> List.filter (λ q, negb (is_expression q)) ts.
Proof.
  induction 1 as [|q entry ts queries Hq _ IH]; [done|].
  rewrite fmap_cons. simpl concat. rewrite substitution_calls_app, IH.
  rewrite substitution_calls_query_target, Hq. simpl.
  by destruct (is_expression q).
Qed.

End QueryTrace.


Section QueryClaims.
Context {Raw DataFrame Prep : Type}.
Variable config : Config.
Variable fetch : BackendSrvRequest → Observable Raw Raw.
Variable toDataQueryResponse : Raw → DataQueryResponse DataFrame.
Variable this : DataSourceWithBackend Prep.

Local Abbreviation this_query := (query config fetch toDataQueryResponse this).
Local Abbreviation this_query_target := (@query_target Raw Prep config this).
Local Abbreviation this_resolve_datasourceId := (@resolve_datasourceId Raw Prep config this).

Lemma filtered_targets_filter request :
  filtered_targets this request =
    List.filter (λ q, match filterQuery this with Some f => f q | None => true end)
      (targets request).
Proof.
  unfold filtered_targets. destruct (filterQuery this); [done|].
  induction (targets request) as [|q ts IH]; [done|]. simpl. by rewrite <-IH.
Qed.

(** C1: when no target is left after the filter (in particular when the
    request has no target), [query] returns an observable of the single
    successful response [{ data: [] }] and its trace holds no call at
    all, so no call to the transport. *)
Theorem query_no_targets_short_circuits request :
  filtered_targets this request = [] →
  (this_query request).2 = Ret (rx_of {| data := Some []; error := None |}) ∧
  (this_query request).1 = [] ∧
  transport_calls (this_query request).1 = [].
Proof.
  intros Hts. rewrite query_unfold, Hts. done.
Qed.

(** C2: once the payload is dispatched, the observable that [query]
    returns never errors: it emits the decoding of every reply of the
    transport and, when the transport fails, the decoding of the error
    itself, by the same routine; its promise resolves with a
    [DataQueryResponse]. *)
Theorem query_normalizes_transport_failure request tr out options :
  this_query request = (tr, out) →
  CallFetch options ∈ tr →
  ∃ obs,
    out = Ret obs ∧
    terminal obs = Completed ∧
    emitted obs =
      (toDataQueryResponse <$> emitted (fetch options)) ++
      match terminal (fetch options) with
      | Completed => []
      | Errored err => [toDataQueryResponse err]
      end ∧
    (∀ err, terminal (fetch options) = Errored err →
            toPromise obs = Resolved (Some (toDataQueryResponse err))).
Proof.
  intros Hq Hin.
  destruct (query_fetch_inv _ _ _ _ _ _ _ _ Hq Hin) as (tr0 & queries & _ & _ & _ & ->).
  eexists. split; [done|]. split; [apply query_pipe_terminal|].
  split; [apply query_pipe_emitted|]. apply query_pipe_failure.
Qed.

(** C3: for a target whose [datasource] is the expression marker the
    callback records no substitution and returns the target with
    [datasourceId] set to the id of the instance and [orgId] to the
    organization id, every other property (so also [intervalMs] and
    [maxDataPoints]) being the target's own; [query] never substitutes
    such a target, and the payload holds this entry at the target's
    place. *)
Theorem expression_target_passes_through request q :
  is_expression q = true →
  this_query_target request q =
    ([], Ret (<["orgId" := JNumber (bootData_user_orgId config)]>
                (<["datasourceId" := JNumber (this_id this)]> q))) ∧
  (∀ k, k ≠ "datasourceId" → k ≠ "orgId" →
        expression_entry config this q !! k = q !! k) ∧
  (∀ vars, (q, vars) ∉ substitution_calls (this_query request).1) ∧
  (∀ options i,
      CallFetch options ∈ (this_query request).1 →
      filtered_targets this request !! i = Some q →
      body_queries (fetch_data options) !! i = Some (expression_entry config this q)).
Proof.
  intros Hexpr.
  assert (this_query_target request q = ([], Ret (expression_entry config this q))) as Hq.
  { destruct (query_target_cases (Raw:=Raw) config this request q)
      as [[_ ?]|[(?&_)|(?&_)]]; [done|congruence..]. }
  split; [exact Hq|]. split; [|split].
  - intros k Hk1 Hk2. unfold expression_entry.
    by rewrite !lookup_insert_ne.
  - intros vars Hin. rewrite query_substitution_calls in Hin.
    apply list_elem_of_omap in Hin as (ev & Hev & Hsome).
    apply mapM_trace in Hev as (q' & _ & Hev).
    apply query_target_trace in Hev as [-> Hq'].
    simpl in Hsome. congruence.
  - intros options i Hin Hi.
    destruct (this_query request) as [tr out] eqn:Hrun.
    destruct (query_fetch_inv _ _ _ _ _ _ _ _ Hrun Hin)
      as (tr0 & queries & HmapM & -> & _ & _).
    simpl. rewrite body_queries_query_body.
    apply mapM_Ret in HmapM as [_ HF].
    destruct (Forall2_lookup_l _ _ _ _ _ HF Hi) as (entry & Hentry & Hret).
    rewrite Hq in Hret. simpl in Hret. congruence.
Qed.

(** C8: the posted body has a range block exactly when the request has a
    range: [body.range] is the range of the request itself, and
    [body.from] and [body.to] are the decimal strings of the millisecond
    epochs of its two ends. *)
Theorem range_block_iff_range request tr out options :
  this_query request = (tr, out) →
  CallFetch options ∈ tr →
  body_range (fetch_data options) = range request ∧
  body_from (fetch_data options) =
    (λ r, number_toString (valueOf (range_from r))) <$> range request ∧
  body_to (fetch_data options) =
    (λ r, number_toString (valueOf (range_to r))) <$> range request ∧
  (is_Some (body_range (fetch_data options)) ↔ is_Some (range request)) ∧
  (is_Some (body_from (fetch_data options)) ↔ is_Some (range request)) ∧
  (is_Some (body_to (fetch_data options)) ↔ is_Some (range request)).
Proof.
  intros Hq Hin.
  destruct (query_fetch_inv _ _ _ _ _ _ _ _ Hq Hin) as (tr0 & queries & _ & -> & _ & _).
  simpl. unfold query_body. destruct (range request) as [r|]; simpl.
  - repeat split; eauto.
  - repeat split; by intros [? ?].
Qed.

(** C9: the entries of the posted body are the filtered targets, each
    turned into its entry by the callback, one for one and in the order
    of the input. *)
Theorem payload_preserves_target_order request tr out options :
  this_query request = (tr, out) →
  CallFetch options ∈ tr →
  Forall2 (λ q entry, (this_query_target request q).2 = Ret entry)
    (List.filter (λ q, match filterQuery this with Some f => f q | None => true end)
       (targets request))
    (body_queries (fetch_data options)).
Proof.
  intros Hq Hin.
  destruct (query_fetch_inv _ _ _ _ _ _ _ _ Hq Hin)
    as (tr0 & queries & HmapM & -> & _ & _).
  simpl. rewrite body_queries_query_body, <-filtered_targets_filter.
  by apply mapM_Ret in HmapM as [_ HF].
Qed.

(** C10: every substitution that [query] records was made with the
    scoped variables of the request, on a filtered target that is not an
    expression; when the entries are all built, the substitutions are
    exactly those targets, in order, each with that one mapping; and the
    hook of the class returns the this_query it is given. *)
Theorem substitution_uses_request_scopedVars request :
  (∀ q vars, (q, vars) ∈ substitution_calls (this_query request).1 →
             vars = scopedVars request ∧
             q ∈ filtered_targets this request ∧
             is_expression q = false) ∧
  (∀ obs, (this_query request).2 = Ret obs →
          substitution_calls (this_query request).1 =
            (λ q, (q, scopedVars request)) <$>
              List.filter (λ q, negb (is_expression q)) (filtered_targets this request)) ∧
  (∀ id q vars, applyTemplateVariables (@base_datasource Prep id) q vars = q).
Proof.
  split; [|split].
  - intros q vars Hin. rewrite query_substitution_calls in Hin.
    apply list_elem_of_omap in Hin as (ev & Hev & Hsome).
    apply mapM_trace in Hev as (q' & Hq' & Hev).
    apply query_target_trace in Hev as [-> Hexpr].
    simpl in Hsome. by simplify_eq.
  - intros obs Hret. rewrite query_substitution_calls.
    rewrite query_unfold in Hret.
    destruct (mapM _ _) as [tr0 [queries|exn]] eqn:HmapM; [|done].
    apply mapM_Ret in HmapM as [-> HF]. simpl.
    by eapply substitution_calls_mapM.
  - done.
Qed.

End QueryClaims.

Section Resolution.
Context {Raw DataFrame Prep : Type}.
Variable config : Config.
Variable fetch : BackendSrvRequest → Observable Raw Raw.
Variable toDataQueryResponse : Raw → DataQueryResponse DataFrame.
Variable this : DataSourceWithBackend Prep.

Local Abbreviation this_query := (query config fetch toDataQueryResponse this).
Local Abbreviation this_query_target := (@query_target Raw Prep config this).
Local Abbreviation this_resolve_datasourceId := (@resolve_datasourceId Raw Prep config this).

Lemma strict_eq_string_eq v s : strict_eq_string v s = true → v = JString s.
Proof.
  destruct v; simpl; try done. by intros ->%String.eqb_eq.
Qed.

Lemma unknown_target_throws request q :
  unknown_datasource config q = true →
  this_query_target request q = ([], Throw (unknown_datasource_error q)).
Proof.
  unfold unknown_datasource.
  intros [[Hexpr%negb_true_iff Htruthy]%andb_true_iff Hlookup]%andb_true_iff.
  destruct (query_target_cases (Raw:=Raw) config this request q)
    as [[? _]|[(_&exn&Hres&->)|(_&id&Hres&_)]]; [congruence| |].
  - unfold resolve_datasourceId in Hres. rewrite Htruthy in Hres.
    destruct (datasources config !! _); [done|].
    simpl in Hres. by injection Hres as <-.
  - unfold resolve_datasourceId in Hres. rewrite Htruthy in Hres.
    by destruct (datasources config !! _).
Qed.

Lemma known_target_returns request q :
  unknown_datasource config q = false →
  ∃ entry, (this_query_target request q).2 = Ret entry.
Proof.
  unfold unknown_datasource. intros Hknown.
  destruct (query_target_cases (Raw:=Raw) config this request q)
    as [[_ ->]|[(Hexpr&exn&Hres&_)|(_&id&_&->)]]; [by eexists| |by eexists].
  rewrite Hexpr in Hknown. simpl in Hknown.
  unfold resolve_datasourceId in Hres.
  destruct (truthy _); [|done]. simpl in Hknown.
  by destruct (datasources config !! _).
Qed.

Lemma known_targets_return request ts :
  Forall (λ q, unknown_datasource config q = false) ts →
  ∃ entries, Forall2 (λ q entry, (this_query_target request q).2 = Ret entry) ts entries.
Proof.
  induction 1 as [|q ts Hq _ [entries IH]]; [by exists []|].
  destruct (known_target_returns request q Hq) as [entry Hentry].
  exists (entry :: entries). by constructor.
Qed.




End Resolution.

(** ** The method [annotationQuery] *)


Section ProcessorFacts.
Context {Raw DataFrame AnnotationEvent : Type}.
Variable config : Config.
Variable fetch : BackendSrvRequest → Observable Raw Raw.
Variable toDataQueryResponse : Raw → DataQueryResponse DataFrame.
Variable getAnnotationsFromFrame : DataFrame → AnnotationsResult AnnotationEvent.
Variable this : DataSourceWithBackend
                  (AnnotationQueryRequest → Processor.Prepared DataFrame AnnotationEvent).

Local Abbreviation this_query := (query config fetch toDataQueryResponse this).
Local Abbreviation annotationQuery :=
  (Processor.annotationQuery config fetch toDataQueryResponse getAnnotationsFromFrame this).

Lemma processor_on_response processor rsp :
  Processor.on_response (Raw:=Raw) getAnnotationsFromFrame processor (Some rsp) =
    ([], Ret (processor_events getAnnotationsFromFrame processor rsp)).
Proof.
  unfold Processor.on_response, processor_events.
  destruct (data rsp) as [[|frame frames]|]; [done| |done].
  by destruct processor.
Qed.

(** Past the guard, the method is [this.query] on the composed request,
    then [toPromise] and the callback. *)
Lemma processor_annotationQuery_composed options now prepare q :
  prepareAnnotationQuery this = Some prepare →
  enable (options_annotation options) = true →
  Processor.prepared_query (prepare options) = Some q →
  annotationQuery options now =
    async (let* o := this_query (Processor.annotation_request options now q) in
           let* rsp := await (toPromise o) in
           Processor.on_response getAnnotationsFromFrame
             (Processor.prepared_processor (prepare options)) rsp).
Proof.
  intros Hprep Hen Hq. unfold Processor.annotationQuery.
  by rewrite Hprep, Hen, Hq.
Qed.

Lemma processor_annotationQuery_failure options now prepare q options' err :
  prepareAnnotationQuery this = Some prepare →
  enable (options_annotation options) = true →
  Processor.prepared_query (prepare options) = Some q →
  CallFetch options' ∈ (this_query (Processor.annotation_request options now q)).1 →
  terminal (fetch options') = Errored err →
  annotationQuery options now =
    ((this_query (Processor.annotation_request options now q)).1,
     Resolved (processor_events getAnnotationsFromFrame
                 (Processor.prepared_processor (prepare options))
                 (toDataQueryResponse err))).
Proof.
  intros Hprep Hen Hq Hin Herr.
  rewrite (processor_annotationQuery_composed _ _ _ _ Hprep Hen Hq).
  destruct (this_query _) as [tr out] eqn:Hrun. simpl in Hin.
  destruct (query_fetch_inv _ _ _ _ _ _ _ _ Hrun Hin) as (tr0 & queries & _ & _ & _ & ->).
  rewrite (bind_Ret _ _ _ _ eq_refl).
  rewrite (query_pipe_failure toDataQueryResponse _ _ Herr).
  change (await (Resolved ?x)) with (ret (E:=Exn Raw) x).
  rewrite bind_ret_l, processor_on_response. unfold async. simpl.
  by rewrite app_nil_r.
Qed.

End ProcessorFacts.

Section InlineFacts.
Context {Raw DataFrame AnnotationEvent : Type}.
Variable config : Config.
Variable fetch : BackendSrvRequest → Observable Raw Raw.
Variable toDataQueryResponse : Raw → DataQueryResponse DataFrame.
Variable getAnnotationsFromFrame : DataFrame → AnnotationsResult AnnotationEvent.
Variable this : DataSourceWithBackend (AnnotationQueryRequest → option JsObject).

Local Abbreviation this_query := (query config fetch toDataQueryResponse this).
Local Abbreviation annotationQuery :=
  (Inline.annotationQuery config fetch toDataQueryResponse getAnnotationsFromFrame this).

Lemma inline_on_response options rsp :
  (Inline.on_response (Raw:=Raw) getAnnotationsFromFrame options (Some rsp)).2 =
    Ret (frame_events getAnnotationsFromFrame rsp) ∧
  transport_calls
    (Inline.on_response (Raw:=Raw) getAnnotationsFromFrame options (Some rsp)).1 = [].
Proof.
  unfold Inline.on_response, frame_events.
  destruct (data rsp) as [[|frame frames]|]; [done| |done].
  by destruct (options_isEditor options).
Qed.

Lemma inline_annotationQuery_composed options now q :
  Inline.resolved_query this options = Some q →
  enable (options_annotation options) = true →
  annotationQuery options now =
    async (let* o := this_query (Inline.annotation_request options now q) in
           let* rsp := await (toPromise o) in
           Inline.on_response getAnnotationsFromFrame options rsp).
Proof.
  intros Hq Hen. unfold Inline.annotationQuery.
  by rewrite Hq, Hen.
Qed.

Lemma inline_annotationQuery_failure options now q options' err :
  Inline.resolved_query this options = Some q →
  enable (options_annotation options) = true →
  CallFetch options' ∈ (this_query (Inline.annotation_request options now q)).1 →
  terminal (fetch options') = Errored err →
  (annotationQuery options now).2 =
    Resolved (frame_events getAnnotationsFromFrame (toDataQueryResponse err)) ∧
  transport_calls (annotationQuery options now).1 = [options'].
Proof.
  intros Hq Hen Hin Herr.
  rewrite (inline_annotationQuery_composed _ _ _ Hq Hen).
  pose proof (query_transport_calls config fetch toDataQueryResponse this
                (Inline.annotation_request options now q)) as Hcalls.
  destruct (this_query _) as [tr out] eqn:Hrun. simpl in Hin.
  destruct (query_fetch_inv _ _ _ _ _ _ _ _ Hrun Hin)
    as (tr0 & queries & HmapM & Hopt & -> & ->).
  rewrite (bind_Ret _ _ _ _ eq_refl).
  rewrite (query_pipe_failure toDataQueryResponse _ _ Herr).
  change (await (Resolved ?x)) with (ret (E:=Exn Raw) x).
  rewrite bind_ret_l.
  destruct (inline_on_response options (toDataQueryResponse err)) as [Hret Hno].
  unfold async. cbn [fst snd]. rewrite Hret. split; [done|].
  rewrite !transport_calls_app, Hno, app_nil_r.
  simpl in Hcalls. rewrite transport_calls_app in *.
  rewrite HmapM in Hcalls. simpl in Hcalls.
  pose proof (mapM_query_target_no_fetch (Raw:=Raw) config this
                (Inline.annotation_request options now q)
                (filtered_targets this (Inline.annotation_request options now q))) as Hno0.
  rewrite HmapM in Hno0. simpl in Hno0. by rewrite Hno0.
Qed.

End InlineFacts.


Section AnnotationClaims.
Context {Raw DataFrame AnnotationEvent : Type}.
Variable config : Config.
Variable fetch : BackendSrvRequest → Observable Raw Raw.
Variable toDataQueryResponse : Raw → DataQueryResponse DataFrame.
Variable getAnnotationsFromFrame : DataFrame → AnnotationsResult AnnotationEvent.

Local Abbreviation processor_annotationQuery :=
  (Processor.annotationQuery config fetch toDataQueryResponse getAnnotationsFromFrame).
Local Abbreviation inline_annotationQuery :=
  (Inline.annotationQuery config fetch toDataQueryResponse getAnnotationsFromFrame).
Local Abbreviation query_of := (query config fetch toDataQueryResponse).

(** C5: in both revisions, when the annotation is not enabled or no query_of
    is resolved, [annotationQuery] resolves to the empty list with an
    empty trace, so without any call to the transport.  In the first
    revision no query_of is resolved when the hook is missing or hands back
    no query_of; in the second when the hook, or without a hook the inline
    query_of, gives none, which covers a hook that yields nothing next to a
    missing inline query_of. *)
Theorem annotationQuery_gate_short_circuits options now :
  (∀ this,
      enable (options_annotation options) = false ∨
      processor_hook_query this options = None →
      processor_annotationQuery this options now = ([], Resolved []) ∧
      transport_calls (processor_annotationQuery this options now).1 = []) ∧
  (∀ this,
      enable (options_annotation options) = false ∨
      Inline.resolved_query this options = None →
      inline_annotationQuery this options now = ([], Resolved []) ∧
      transport_calls (inline_annotationQuery this options now).1 = []) ∧
  (∀ this,
      inline_hook_query this options = None →
      annotation_annotation (options_annotation options) = None →
      Inline.resolved_query this options = None).
Proof.
  split; [|split].
  - intros this Hgate.
    assert (processor_annotationQuery this options now = ([], Resolved [])) as ->; [|done].
    unfold Processor.annotationQuery, processor_hook_query in *.
    destruct (prepareAnnotationQuery this) as [prepare|]; [|done].
    destruct (enable (options_annotation options)); [|done].
    destruct Hgate as [?| ->]; done.
  - intros this Hgate.
    assert (inline_annotationQuery this options now = ([], Resolved [])) as ->; [|done].
    unfold Inline.annotationQuery.
    destruct (Inline.resolved_query this options) as [q|]; [|done].
    destruct (enable (options_annotation options)); [|done].
    destruct Hgate; done.
  - intros this Hhook Hinline. unfold Inline.resolved_query, inline_hook_query in *.
    by destruct (prepareAnnotationQuery this).
Qed.

(** C6, as amended: when the request passes the guard and the dispatched
    transport call fails with [err], [annotationQuery] resolves and does
    not reject; it resolves to the events read off the normalized failure
    [toDataQueryResponse(err)] exactly as off a success, which is the
    empty list when that response has no frame. *)
Theorem annotationQuery_transport_failure_resolves options now q options' err :
  (∀ this prepare,
      prepareAnnotationQuery this = Some prepare →
      enable (options_annotation options) = true →
      Processor.prepared_query (prepare options) = Some q →
      CallFetch options' ∈ (query_of this (Processor.annotation_request options now q)).1 →
      terminal (fetch options') = Errored err →
      (processor_annotationQuery this options now).2 =
        Resolved (processor_events getAnnotationsFromFrame
                    (Processor.prepared_processor (prepare options))
                    (toDataQueryResponse err)) ∧
      (no_frames (toDataQueryResponse err) →
       (processor_annotationQuery this options now).2 = Resolved [])) ∧
  (∀ this,
      Inline.resolved_query this options = Some q →
      enable (options_annotation options) = true →
      CallFetch options' ∈ (query_of this (Inline.annotation_request options now q)).1 →
      terminal (fetch options') = Errored err →
      (inline_annotationQuery this options now).2 =
        Resolved (frame_events getAnnotationsFromFrame (toDataQueryResponse err)) ∧
      (no_frames (toDataQueryResponse err) →
       (inline_annotationQuery this options now).2 = Resolved [])).
Proof.
  split.
  - intros this prepare Hprep Hen Hq Hin Herr.
    rewrite (processor_annotationQuery_failure _ _ _ _ _ _ _ _ _ _ _
               Hprep Hen Hq Hin Herr).
    split; [done|]. simpl. unfold processor_events. by intros [-> | ->].
  - intros this Hq Hen Hin Herr.
    destruct (inline_annotationQuery_failure config fetch toDataQueryResponse
                getAnnotationsFromFrame this _ _ _ _ _ Hq Hen Hin Herr) as [-> _].
    split; [done|]. unfold frame_events. by intros [-> | ->].
Qed.

(** C7, as amended: past the guard both revisions call [this.query] on a
    request with the single target [query], [requestId] equal to "anno-"
    followed by the reading of the clock, no scoped variable and the
    timezone of the dashboard.  The second revision sets [interval] and
    [intervalMs] to '1m' and 60000 when the annotation request has none;
    the first revision hands over those of the annotation request as
    they are, missing when they are missing. *)
Theorem annotationQuery_composed_request options now q :
  let anno_id := "anno-" +:+ number_toString now in
  (∀ this prepare,
      prepareAnnotationQuery this = Some prepare →
      enable (options_annotation options) = true →
      Processor.prepared_query (prepare options) = Some q →
      let request := Processor.annotation_request options now q in
      processor_annotationQuery this options now =
        async (let* o := query_of this request in
               let* rsp := await (toPromise o) in
               Processor.on_response getAnnotationsFromFrame
                 (Processor.prepared_processor (prepare options)) rsp) ∧
      requestId request = anno_id ∧
      scopedVars request = ∅ ∧
      timezone request = dashboard_timezone (options_dashboard options) ∧
      targets request = [q] ∧
      interval request = options_interval options ∧
      intervalMs request = options_intervalMs options) ∧
  (∀ this,
      Inline.resolved_query this options = Some q →
      enable (options_annotation options) = true →
      let request := Inline.annotation_request options now q in
      inline_annotationQuery this options now =
        async (let* o := query_of this request in
               let* rsp := await (toPromise o) in
               Inline.on_response getAnnotationsFromFrame options rsp) ∧
      requestId request = anno_id ∧
      scopedVars request = ∅ ∧
      timezone request = dashboard_timezone (options_dashboard options) ∧
      targets request = [q] ∧
      (options_interval options = None → interval request = Some "1m") ∧
      (options_intervalMs options = None → intervalMs request = Some 60000) ∧
      (∀ s, options_interval options = Some s → s ≠ "" → interval request = Some s) ∧
      (∀ n, options_intervalMs options = Some n → n ≠ 0 → intervalMs request = Some n)).
Proof.
  intros anno_id. split.
  - intros this prepare Hprep Hen Hq request.
    split; [by apply processor_annotationQuery_composed|done].
  - intros this Hq Hen request.
    split; [by apply inline_annotationQuery_composed|].
    repeat split; simpl.
    + by intros ->.
    + by intros ->.
    + intros s -> Hs. simpl. by destruct (String.eqb_spec s "").
    + intros n -> Hn. simpl. by destruct (Z.eqb_spec n 0).
Qed.

End AnnotationClaims.

(** ** The claims on the sample installation *)

(** Membership in a concrete trace, by running the method. *)
Ltac in_trace :=
  vm_compute; repeat first [apply list_elem_of_here | apply list_elem_of_further].

Section SampleRuns.
Import Sample.

Local Abbreviation plugin := (@skip_hidden unit).

Local Abbreviation sample_query fetch :=
  (query config fetch toDataQueryResponse plugin).

Lemma query_no_targets_short_circuits_witness :
  filtered_targets plugin (request [hidden_target]) = [] ∧
  (sample_query fetch_ok (request [hidden_target])).2 =
    Ret (rx_of {| data := Some []; error := None |}) ∧
  (sample_query fetch_ok (request [hidden_target])).1 = [] ∧
  transport_calls (sample_query fetch_ok (request [hidden_target])).1 = [].
Proof.
  split; [vm_compute; reflexivity|].
  apply (query_no_targets_short_circuits config fetch_ok toDataQueryResponse
           plugin (request [hidden_target])).
  vm_compute; reflexivity.
Defined.


Lemma query_normalizes_transport_failure_witness :
  ∃ obs,
    (sample_query (fetch_failing network_error) (request [plain_target])).2 = Ret obs ∧
    terminal obs = Completed ∧
    emitted obs =
      (toDataQueryResponse <$> emitted (fetch_failing network_error plain_call)) ++
      match terminal (fetch_failing network_error plain_call) with
      | Completed => []
      | Errored err => [toDataQueryResponse err]
      end ∧
    (∀ err, terminal (fetch_failing network_error plain_call) = Errored err →
            toPromise obs = Resolved (Some (toDataQueryResponse err))).
Proof.
  apply (query_normalizes_transport_failure config (fetch_failing network_error)
           toDataQueryResponse plugin (request [plain_target]) _ _ plain_call
           (surjective_pairing _)).
  in_trace.
Defined.

Lemma expression_target_passes_through_witness :
  is_expression expression_target = true ∧
  query_target (Raw:=Reply) config plugin mixed_request expression_target =
    ([], Ret (<["orgId" := JNumber 1]> (<["datasourceId" := JNumber 3]> expression_target))) ∧
  (∀ vars, (expression_target, vars) ∉
             substitution_calls (sample_query fetch_ok mixed_request).1) ∧
  body_queries (fetch_data mixed_call) !! 0%nat =
    Some (expression_entry config plugin expression_target).
Proof.
  split; [reflexivity|].
  destruct (expression_target_passes_through config fetch_ok toDataQueryResponse
              plugin mixed_request expression_target eq_refl)
    as (Hentry & _ & Hcalls & Hpayload).
  split; [exact Hentry|]. split; [exact Hcalls|].
  apply (Hpayload mixed_call 0%nat); [in_trace|vm_compute; reflexivity].
Defined.


Lemma range_block_iff_range_witness :
  body_range (fetch_data plain_call) = Some time_range ∧
  body_from (fetch_data plain_call) = Some "1600000000000" ∧
  body_to (fetch_data plain_call) = Some "1600000360000".
Proof.
  destruct (range_block_iff_range config fetch_ok toDataQueryResponse
              plugin (request [plain_target]) _ _ plain_call
              (surjective_pairing _)) as (Hrange & Hfrom & Hto & _).
  { in_trace. }
  split; [exact Hrange|]. split; [exact Hfrom|exact Hto].
Defined.

Lemma payload_preserves_target_order_witness :
  Forall2 (λ q entry,
             (query_target (Raw:=Reply) config plugin
                mixed_request q).2 = Ret entry)
    (List.filter (λ q, negb (truthy (get q "hide"))) (targets mixed_request))
    (body_queries (fetch_data mixed_call)).
Proof.
  apply (payload_preserves_target_order config fetch_ok toDataQueryResponse
           plugin mixed_request _ _ mixed_call (surjective_pairing _)).
  in_trace.
Defined.

Lemma substitution_uses_request_scopedVars_witness :
  substitution_calls (sample_query fetch_ok mixed_request).1 =
    [(plain_target, scopedVars mixed_request)].
Proof.
  destruct (substitution_uses_request_scopedVars config fetch_ok toDataQueryResponse
              plugin mixed_request) as (_ & Hcalls & _).
  apply (Hcalls (query_pipe toDataQueryResponse (fetch_ok mixed_call))).
  vm_compute; reflexivity.
Defined.

End SampleRuns.

Section SampleAnnotations.
Import Sample.

Local Abbreviation processor_run fetch :=
  (Processor.annotationQuery config fetch toDataQueryResponse getAnnotationsFromFrame
     with_processor_hook).
Local Abbreviation inline_run fetch :=
  (Inline.annotationQuery config fetch toDataQueryResponse getAnnotationsFromFrame
     (base_datasource 3)).
Local Abbreviation enabled := enabled_annotation.

Lemma annotationQuery_gate_short_circuits_witness :
  processor_run fetch_ok (annotation_options false (Some plain_target)) clock =
    ([], Resolved []) ∧
  inline_run fetch_ok (annotation_options true None) clock = ([], Resolved []).
Proof.
  split.
  - destruct (annotationQuery_gate_short_circuits config fetch_ok toDataQueryResponse
                getAnnotationsFromFrame (annotation_options false (Some plain_target))
                clock) as (Hgate & _).
    apply (Hgate with_processor_hook). left. reflexivity.
  - destruct (annotationQuery_gate_short_circuits config fetch_ok toDataQueryResponse
                getAnnotationsFromFrame (annotation_options true None)
                clock) as (_ & Hgate & _).
    apply (Hgate (base_datasource 3)). right. reflexivity.
Defined.

(** C6, as stated, fails: a transport failure whose normalized response
    is a failure that still holds a frame makes both revisions resolve to
    the events of that frame, not to the empty list. *)
Lemma annotationQuery_failure_with_frame_counterexample :
  is_failure (toDataQueryResponse partial_failure) ∧
  transport_calls (processor_run (fetch_failing partial_failure) enabled clock).1 =
    [processor_call] ∧
  (processor_run (fetch_failing partial_failure) enabled clock).2 =
    Resolved ["event of A"] ∧
  (processor_run (fetch_failing partial_failure) enabled clock).2 ≠ Resolved [] ∧
  transport_calls (inline_run (fetch_failing partial_failure) enabled clock).1 =
    [inline_call] ∧
  (inline_run (fetch_failing partial_failure) enabled clock).2 =
    Resolved ["event of A"] ∧
  (inline_run (fetch_failing partial_failure) enabled clock).2 ≠ Resolved [].
Proof.
  split; [by eexists|].
  assert ((processor_run (fetch_failing partial_failure) enabled clock).2 =
            Resolved ["event of A"]) as Hp by (vm_compute; reflexivity).
  assert ((inline_run (fetch_failing partial_failure) enabled clock).2 =
            Resolved ["event of A"]) as Hi by (vm_compute; reflexivity).
  rewrite Hp, Hi.
  repeat split; try (vm_compute; reflexivity); discriminate.
Qed.

Lemma annotationQuery_transport_failure_resolves_witness :
  (processor_run (fetch_failing network_error) enabled clock).2 = Resolved [] ∧
  (inline_run (fetch_failing network_error) enabled clock).2 = Resolved [].
Proof.
  split.
  - destruct (annotationQuery_transport_failure_resolves config
                (fetch_failing network_error) toDataQueryResponse
                getAnnotationsFromFrame enabled clock plain_target processor_call
                network_error) as [Hprocessor _].
    edestruct (Hprocessor with_processor_hook) as [_ Hempty];
      [reflexivity|reflexivity|reflexivity|in_trace|reflexivity|].
    apply Hempty. right. reflexivity.
  - destruct (annotationQuery_transport_failure_resolves config
                (fetch_failing network_error) toDataQueryResponse
                getAnnotationsFromFrame enabled clock plain_target inline_call
                network_error) as [_ Hinline].
    edestruct (Hinline (base_datasource 3)) as [_ Hempty];
      [reflexivity|reflexivity|in_trace|reflexivity|].
    apply Hempty. right. reflexivity.
Defined.

(** C7, as stated, fails for the first revision: an annotation request
    without [interval] and [intervalMs] gives a request without them, and
    the entry it posts has no [intervalMs]. *)
Lemma processor_request_interval_counterexample :
  options_interval enabled = None ∧
  options_intervalMs enabled = None ∧
  interval (Processor.annotation_request enabled clock plain_target) = None ∧
  intervalMs (Processor.annotation_request enabled clock plain_target) = None ∧
  interval (Processor.annotation_request enabled clock plain_target) ≠ Some "1m" ∧
  intervalMs (Processor.annotation_request enabled clock plain_target) ≠ Some 60000 ∧
  transport_calls (processor_run fetch_ok enabled clock).1 = [processor_call] ∧
  (λ entry, get entry "intervalMs") <$> body_queries (fetch_data processor_call) =
    [JUndefined].
Proof.
  repeat split; try discriminate; vm_compute; reflexivity.
Qed.

Lemma annotationQuery_composed_request_witness :
  requestId (Processor.annotation_request enabled clock plain_target) =
    "anno-" +:+ number_toString clock ∧
  interval (Processor.annotation_request enabled clock plain_target) = None ∧
  requestId (Inline.annotation_request enabled clock plain_target) =
    "anno-" +:+ number_toString clock ∧
  interval (Inline.annotation_request enabled clock plain_target) = Some "1m" ∧
  intervalMs (Inline.annotation_request enabled clock plain_target) = Some 60000.
Proof.
  destruct (annotationQuery_composed_request config fetch_ok toDataQueryResponse
              getAnnotationsFromFrame enabled clock plain_target)
    as [Hprocessor Hinline].
  edestruct (Hprocessor with_processor_hook) as (_ & Hid & _ & _ & _ & Hint & _);
    [reflexivity|reflexivity|reflexivity|].
  destruct (Hinline (base_datasource 3) eq_refl eq_refl)
    as (_ & Hid' & _ & _ & _ & Hint' & Hms & _).
  split; [exact Hid|]. split; [exact Hint|]. split; [exact Hid'|].
  split; [apply Hint'; reflexivity|apply Hms; reflexivity].
Defined.

End SampleAnnotations.

(** * Further properties *)

(** ** Dispatch by [query] *)

Section QueryDispatch.
Context {Raw DataFrame Prep : Type}.
Variable config : Config.
Variable fetch : BackendSrvRequest → Observable Raw Raw.
Variable toDataQueryResponse : Raw → DataQueryResponse DataFrame.
Variable this : DataSourceWithBackend Prep.

Local Abbreviation this_query := (query config fetch toDataQueryResponse this).
Local Abbreviation this_query_target := (@query_target Raw Prep config this).
Local Abbreviation this_resolve_datasourceId := (@resolve_datasourceId Raw Prep config this).

Lemma returned_target_is_known request q entry :
  (this_query_target request q).2 = Ret entry → unknown_datasource config q = false.
Proof.
  intros Hret. destruct (unknown_datasource config q) eqn:Hq; [|done].
  by rewrite (unknown_target_throws (Raw:=Raw) config this request q Hq) in Hret.
Qed.

Lemma returned_targets_are_known request ts entries :
  Forall2 (λ q entry, (this_query_target request q).2 = Ret entry) ts entries →
  Forall (λ q, unknown_datasource config q = false) ts.
Proof.
  induction 1 as [|q entry ts entries Hq _ IH]; constructor; [|done].
  by eapply returned_target_is_known.
Qed.

(** [query] calls the transport at most once and as its last step: a POST
    to [/api/ds/query] that carries the request id and at least one
    entry. *)
Theorem query_calls_transport_at_most_once request :
  (length (transport_calls (this_query request).1) ≤ 1)%nat ∧
  ∀ options, options ∈ transport_calls (this_query request).1 →
    last (this_query request).1 = Some (CallFetch options) ∧
    fetch_url options = "/api/ds/query" ∧
    fetch_method options = "POST" ∧
    fetch_requestId options = requestId request ∧
    body_queries (fetch_data options) ≠ [].
Proof.
  split.
  - rewrite query_transport_calls.
    destruct (mapM _ _).2 as [[|q qs]|exn]; simpl; lia.
  - intros options Hin.
    pose proof (query_transport_calls config fetch toDataQueryResponse this request) as Hcalls.
    apply elem_of_transport_calls in Hin as Hev.
    destruct (this_query request) as [tr out] eqn:Hrun. simpl in *.
    destruct (query_fetch_inv _ _ _ _ _ _ _ _ Hrun Hev)
      as (tr0 & queries & HmapM & -> & -> & _).
    rewrite HmapM in Hcalls. simpl in Hcalls.
    split; [apply last_snoc|]. repeat split.
    simpl. rewrite body_queries_query_body. intros ->.
    rewrite Hcalls in Hin. by apply elem_of_nil in Hin.
Qed.

(** [query] returns, rather than throws, exactly when no target that the
    filter keeps names an unknown backend; targets that the filter drops
    are never resolved. *)
Theorem query_returns_iff_targets_known request :
  (∃ obs, (this_query request).2 = Ret obs) ↔
  Forall (λ q, unknown_datasource config q = false) (filtered_targets this request).
Proof.
  rewrite query_unfold. split.
  - intros [obs Hret].
    destruct (mapM _ _) as [tr [queries|exn]] eqn:HmapM; [|done].
    apply mapM_Ret in HmapM as [_ HF]. by eapply returned_targets_are_known.
  - intros Hknown.
    destruct (known_targets_return (Raw:=Raw) config this request _ Hknown)
      as [entries HF].
    rewrite (mapM_all_Ret _ _ _ HF). destruct entries; by eexists.
Qed.

(** When the filter keeps at least one target and all kept targets
    resolve, the transport is called exactly once, with one entry per kept
    target. *)
Theorem query_dispatches_once request :
  filtered_targets this request ≠ [] →
  Forall (λ q, unknown_datasource config q = false) (filtered_targets this request) →
  ∃ entries,
    Forall2 (λ q entry, (this_query_target request q).2 = Ret entry)
      (filtered_targets this request) entries ∧
    transport_calls (this_query request).1 = [query_fetch_options request entries] ∧
    (this_query request).2 =
      Ret (query_pipe toDataQueryResponse (fetch (query_fetch_options request entries))).
Proof.
  intros Hne Hknown.
  destruct (known_targets_return (Raw:=Raw) config this request _ Hknown)
    as [entries HF].
  exists entries. split; [done|].
  rewrite query_transport_calls, query_unfold, (mapM_all_Ret _ _ _ HF).
  destruct entries as [|entry entries]; [|done].
  apply Forall2_nil_inv_r in HF. done.
Qed.

End QueryDispatch.

(** ** Entries built by [query] *)

Section QueryEntries.
Context {Raw DataFrame Prep : Type}.
Variable config : Config.
Variable fetch : BackendSrvRequest → Observable Raw Raw.
Variable toDataQueryResponse : Raw → DataQueryResponse DataFrame.
Variable this : DataSourceWithBackend Prep.

Local Abbreviation this_query := (query config fetch toDataQueryResponse this).
Local Abbreviation this_query_target := (@query_target Raw Prep config this).
Local Abbreviation this_resolve_datasourceId := (@resolve_datasourceId Raw Prep config this).

Lemma is_expression_truthy q : is_expression q = true → truthy (get q "datasource") = true.
Proof.
  unfold is_expression. intros Hq%strict_eq_string_eq. by rewrite Hq.
Qed.

(** The entry of a target off the expression branch, once its id is
    resolved. *)
Lemma query_target_resolved request q id :
  is_expression q = false →
  (this_resolve_datasourceId q).2 = Ret id →
  this_query_target request q =
    ([CallApplyTemplateVariables q (scopedVars request)],
     Ret (backend_entry config request
            (applyTemplateVariables this q (scopedVars request)) id)).
Proof.
  intros Hexpr Hres.
  destruct (query_target_cases (Raw:=Raw) config this request q)
    as [[? _]|[(_&exn&Hres'&_)|(_&id'&Hres'&->)]]; congruence.
Qed.

(** A target without a reference, or with a falsy one ([null], the empty
    string), is sent to the instance's own backend: the table is not
    consulted and nothing is thrown, whatever the table holds. *)
Theorem falsy_datasource_uses_own_id request q :
  truthy (get q "datasource") = false →
  this_query_target request q =
    ([CallApplyTemplateVariables q (scopedVars request)],
     Ret (backend_entry config request
            (applyTemplateVariables this q (scopedVars request)) (this_id this))).
Proof.
  intros Hfalsy. apply query_target_resolved.
  - destruct (is_expression q) eqn:Hq; [|done].
    apply is_expression_truthy in Hq. congruence.
  - unfold resolve_datasourceId. by rewrite Hfalsy.
Qed.

(** A reference other than the expression marker and ["default"] is looked
    up in the table under its string form, and the entry gets the id found
    there, not the instance's own. *)
Theorem named_datasource_uses_table_id request q ds :
  is_expression q = false →
  truthy (get q "datasource") = true →
  strict_eq_string (get q "datasource") "default" = false →
  datasources config !! to_string (get q "datasource") = Some ds →
  this_query_target request q =
    ([CallApplyTemplateVariables q (scopedVars request)],
     Ret (backend_entry config request
            (applyTemplateVariables this q (scopedVars request)) (settings_id ds))).
Proof.
  intros Hexpr Htruthy Hdefault Hlookup. apply query_target_resolved; [done|].
  unfold resolve_datasourceId, dsName. by rewrite Htruthy, Hdefault, Hlookup.
Qed.

(** In the entry of a target off the expression branch the four properties
    [datasourceId], [intervalMs], [maxDataPoints] and [orgId] are the
    builder's, whatever the substitution hook returned under these names;
    every other property is the one of the hook's result. *)
Theorem backend_entry_overrides_hook request q entry :
  is_expression q = false →
  (this_query_target request q).2 = Ret entry →
  ∃ id,
    (this_resolve_datasourceId q).2 = Ret id ∧
    entry !! "datasourceId" = Some (JNumber id) ∧
    entry !! "intervalMs" = Some (number_or_undefined (intervalMs request)) ∧
    entry !! "maxDataPoints" = Some (number_or_undefined (maxDataPoints request)) ∧
    entry !! "orgId" = Some (JNumber (bootData_user_orgId config)) ∧
    ∀ k, k ≠ "datasourceId" → k ≠ "intervalMs" → k ≠ "maxDataPoints" → k ≠ "orgId" →
         entry !! k = applyTemplateVariables this q (scopedVars request) !! k.
Proof.
  intros Hexpr Hret.
  destruct (query_target_cases (Raw:=Raw) config this request q)
    as [[? _]|[(_&exn&_&Hq)|(_&id&Hres&Hq)]]; [congruence| |].
  { rewrite Hq in Hret. done. }
  rewrite Hq in Hret. simpl in Hret. injection Hret as <-.
  exists id. split; [done|]. unfold backend_entry.
  repeat split.
  - by rewrite 3 lookup_insert_ne, lookup_insert_eq.
  - by rewrite 2 lookup_insert_ne, lookup_insert_eq.
  - by rewrite lookup_insert_ne, lookup_insert_eq.
  - by rewrite lookup_insert_eq.
  - intros k ????. by rewrite !lookup_insert_ne.
Qed.

(** When a target names an unknown backend, the substitution hook has
    already run on the targets before it that are not expressions, and it
    runs on no target after it. *)
Theorem query_throw_substitutes_only_earlier_targets request l1 q l2 :
  filtered_targets this request = l1 ++ q :: l2 →
  Forall (λ q', unknown_datasource config q' = false) l1 →
  unknown_datasource config q = true →
  substitution_calls (this_query request).1 =
    (λ q', (q', scopedVars request)) <$> List.filter (λ q', negb (is_expression q')) l1.
Proof.
  intros Hts Hl1 Hq.
  destruct (known_targets_return (Raw:=Raw) config this request l1 Hl1) as [entries HF].
  pose proof (unknown_target_throws (Raw:=Raw) config this request q Hq) as Hthrow.
  assert ((this_query_target request q).2 = Throw (unknown_datasource_error q)) as Hq2
    by by rewrite Hthrow.
  rewrite query_substitution_calls, Hts.
  rewrite (mapM_first_Throw (this_query_target request) l1 q l2 entries _ HF Hq2).
  simpl. rewrite substitution_calls_app, Hthrow. simpl. rewrite app_nil_r.
  by eapply substitution_calls_mapM.
Qed.

Lemma substituted_target_is_filtered request q vars :
  (q, vars) ∈ substitution_calls (this_query request).1 →
  q ∈ filtered_targets this request.
Proof.
  rewrite query_substitution_calls. intros Hin.
  apply list_elem_of_omap in Hin as (ev & Hev & Hsome).
  apply mapM_trace in Hev as (q' & Hq' & Hev).
  apply query_target_trace in Hev as [-> _]. simpl in Hsome. by simplify_eq.
Qed.

(** A target that the filter hook rejects is dropped silently: it is not
    among the targets that are resolved and the substitution hook never
    sees it. *)
Theorem rejected_target_is_ignored request f q :
  filterQuery this = Some f →
  f q = false →
  (q ∉ filtered_targets this request) ∧
  (∀ vars, (q, vars) ∉ substitution_calls (this_query request).1).
Proof.
  intros Hf Hq.
  assert (q ∉ filtered_targets this request) as Hnot.
  { unfold filtered_targets. rewrite Hf.
    intros Hin%list_elem_of_In. apply filter_In in Hin as [_ Hfq]. congruence. }
  split; [done|]. intros vars Hin. by apply substituted_target_is_filtered in Hin.
Qed.

(** When the transport completes, the observable of [query] emits the
    decoding of each reply in order and completes, and its promise
    resolves with the decoding of the last reply. *)
Theorem query_decodes_transport_replies request options replies :
  CallFetch options ∈ (this_query request).1 →
  fetch options = {| emitted := replies; terminal := Completed |} →
  ∃ obs,
    (this_query request).2 = Ret obs ∧
    emitted obs = toDataQueryResponse <$> replies ∧
    terminal obs = Completed ∧
    toPromise obs = Resolved (toDataQueryResponse <$> last replies).
Proof.
  intros Hin Hfetch.
  destruct (this_query request) as [tr out] eqn:Hrun. simpl in Hin.
  destruct (query_fetch_inv _ _ _ _ _ _ _ _ Hrun Hin) as (_ & _ & _ & _ & _ & ->).
  eexists. split; [done|].
  assert (emitted (query_pipe toDataQueryResponse (fetch options)) =
            toDataQueryResponse <$> replies) as Hem.
  { rewrite query_pipe_emitted, Hfetch. simpl. by rewrite app_nil_r. }
  split; [done|]. split; [apply query_pipe_terminal|].
  unfold toPromise. by rewrite query_pipe_terminal, Hem, fmap_last.
Qed.

End QueryEntries.

(** ** Requests of a single target *)

Section SingleTarget.
Context {Raw DataFrame Prep : Type}.
Variable config : Config.
Variable fetch : BackendSrvRequest → Observable Raw Raw.
Variable toDataQueryResponse : Raw → DataQueryResponse DataFrame.
Variable this : DataSourceWithBackend Prep.

Local Abbreviation this_query := (query config fetch toDataQueryResponse this).
Local Abbreviation this_query_target := (@query_target Raw Prep config this).

Lemma filtered_targets_single request q :
  targets request = [q] →
  filtered_targets this request = if keeps_target this q then [q] else [].
Proof.
  unfold filtered_targets, keeps_target. intros ->.
  destruct (filterQuery this) as [f|]; [|done]. simpl. by destruct (f q).
Qed.

(** Every event that [query] records is a substitution or a transport
    call. *)
Lemma query_trace_events request ev :
  ev ∈ (this_query request).1 →
  (∃ q vars, ev = CallApplyTemplateVariables q vars) ∨ (∃ options, ev = CallFetch options).
Proof.
  rewrite query_unfold.
  destruct (mapM _ _) as [tr [[|entry entries]|exn]] eqn:HmapM; simpl;
    try (intros Hin; left;
         assert (ev ∈ (mapM (this_query_target request)
                         (filtered_targets this request)).1) as Hin'
           by (by rewrite HmapM);
         apply mapM_trace in Hin' as (q & _ & Hev);
         apply query_target_trace in Hev as [-> _]; by eauto).
  intros [Hin| ->%list_elem_of_singleton]%elem_of_app; [|by eauto].
  left.
  assert (ev ∈ (mapM (this_query_target request)
                  (filtered_targets this request)).1) as Hin'
    by (by rewrite HmapM).
  apply mapM_trace in Hin' as (q & _ & Hev).
  apply query_target_trace in Hev as [-> _]. by eauto.
Qed.

(** The call that [query] makes for a request of one target posts the one
    entry of that target, which the filter has kept. *)
Lemma query_single_target_call request q options :
  targets request = [q] →
  options ∈ transport_calls (this_query request).1 →
  ∃ entry,
    keeps_target this q = true ∧
    (this_query_target request q).2 = Ret entry ∧
    options = query_fetch_options request [entry] ∧
    (this_query request).2 = Ret (query_pipe toDataQueryResponse (fetch options)).
Proof.
  intros Hts Hin.
  pose proof (query_transport_calls config fetch toDataQueryResponse this request) as Hcalls.
  apply elem_of_transport_calls in Hin as Hev.
  destruct (this_query request) as [tr out] eqn:Hrun. simpl in *.
  destruct (query_fetch_inv _ _ _ _ _ _ _ _ Hrun Hev)
    as (tr0 & queries & HmapM & -> & -> & ->).
  rewrite (filtered_targets_single _ _ Hts) in HmapM, Hcalls.
  destruct (keeps_target this q).
  - apply mapM_Ret in HmapM as [_ HF].
    apply Forall2_cons_inv_l in HF as (entry & rest & Hentry & Hrest & ->).
    apply Forall2_nil_inv_l in Hrest as ->. by exists entry.
  - simpl in HmapM. injection HmapM as <- <-. done.
Qed.

(** [query] on one target that the filter drops. *)
Lemma query_single_target_dropped request q :
  targets request = [q] →
  keeps_target this q = false →
  this_query request = ([], Ret (rx_of empty_response)).
Proof.
  intros Hts Hkeep. rewrite query_unfold, (filtered_targets_single _ _ Hts), Hkeep. done.
Qed.

(** [query] on one kept target that names an unknown backend. *)
Lemma query_single_target_unknown request q :
  targets request = [q] →
  keeps_target this q = true →
  unknown_datasource config q = true →
  this_query request = ([], Throw (unknown_datasource_error q)).
Proof.
  intros Hts Hkeep Hq.
  rewrite query_unfold, (filtered_targets_single _ _ Hts), Hkeep.
  rewrite mapM_cons, (unknown_target_throws (Raw:=Raw) config this request q Hq). done.
Qed.

End SingleTarget.

(** ** [annotationQuery] past its guard *)

(** What the second revision records after the transport call: the write
    of [window.lastAnnotationQuery], in the editor and for a response with
    a frame. *)
Definition editor_write {DataFrame} (options : AnnotationQueryRequest)
    (rsp : DataQueryResponse DataFrame) : list Event :=
  match data rsp with
  | Some (_ :: _) => if options_isEditor options then [WriteLastAnnotationQuery] else []
  | _ => []
  end.

Section ProcessorRuns.
Context {Raw DataFrame AnnotationEvent : Type}.
Variable config : Config.
Variable fetch : BackendSrvRequest → Observable Raw Raw.
Variable toDataQueryResponse : Raw → DataQueryResponse DataFrame.
Variable getAnnotationsFromFrame : DataFrame → AnnotationsResult AnnotationEvent.
Variable this : DataSourceWithBackend
                  (AnnotationQueryRequest → Processor.Prepared DataFrame AnnotationEvent).

Local Abbreviation this_query := (query config fetch toDataQueryResponse this).
Local Abbreviation annotationQuery :=
  (Processor.annotationQuery config fetch toDataQueryResponse getAnnotationsFromFrame this).

(** Past the guard, the outcome of the method by the outcome of
    [this.query] and of its promise. *)
Lemma processor_annotationQuery_run options now prepare q :
  prepareAnnotationQuery this = Some prepare →
  enable (options_annotation options) = true →
  Processor.prepared_query (prepare options) = Some q →
  annotationQuery options now =
    match this_query (Processor.annotation_request options now q) with
    | (tr, Throw exn) => (tr, Rejected exn)
    | (tr, Ret o) =>
        match toPromise o with
        | Rejected err => (tr, Rejected (RawError err))
        | Resolved None =>
            (tr, Rejected (TypeError "Cannot read property 'data' of undefined"))
        | Resolved (Some rsp) =>
            (tr, Resolved (processor_events getAnnotationsFromFrame
                             (Processor.prepared_processor (prepare options)) rsp))
        end
    end.
Proof.
  intros Hprep Hen Hq.
  rewrite (processor_annotationQuery_composed _ _ _ _ _ _ _ _ _ Hprep Hen Hq).
  destruct (this_query _) as [tr [o|exn]]; [|done].
  rewrite (bind_Ret _ _ _ _ eq_refl).
  destruct (toPromise o) as [[rsp|]|err].
  - change (await (Resolved ?x)) with (ret (E:=Exn Raw) x).
    rewrite bind_ret_l, processor_on_response. unfold async. simpl.
    by rewrite app_nil_r.
  - unfold async, bind. simpl. by rewrite !app_nil_r.
  - unfold async, bind. simpl. by rewrite !app_nil_r.
Qed.

End ProcessorRuns.

Section InlineRuns.
Context {Raw DataFrame AnnotationEvent : Type}.
Variable config : Config.
Variable fetch : BackendSrvRequest → Observable Raw Raw.
Variable toDataQueryResponse : Raw → DataQueryResponse DataFrame.
Variable getAnnotationsFromFrame : DataFrame → AnnotationsResult AnnotationEvent.
Variable this : DataSourceWithBackend (AnnotationQueryRequest → option JsObject).

Local Abbreviation this_query := (query config fetch toDataQueryResponse this).
Local Abbreviation annotationQuery :=
  (Inline.annotationQuery config fetch toDataQueryResponse getAnnotationsFromFrame this).

Lemma inline_on_response_run options rsp :
  Inline.on_response (Raw:=Raw) getAnnotationsFromFrame options (Some rsp) =
    (editor_write options rsp, Ret (frame_events getAnnotationsFromFrame rsp)).
Proof.
  unfold Inline.on_response, frame_events, editor_write.
  destruct (data rsp) as [[|frame frames]|]; [done| |done].
  by destruct (options_isEditor options).
Qed.

Lemma inline_annotationQuery_run options now q :
  Inline.resolved_query this options = Some q →
  enable (options_annotation options) = true →
  annotationQuery options now =
    match this_query (Inline.annotation_request options now q) with
    | (tr, Throw exn) => (tr, Rejected exn)
    | (tr, Ret o) =>
        match toPromise o with
        | Rejected err => (tr, Rejected (RawError err))
        | Resolved None =>
            (tr, Rejected (TypeError "Cannot read property 'data' of undefined"))
        | Resolved (Some rsp) =>
            (tr ++ editor_write options rsp,
             Resolved (frame_events getAnnotationsFromFrame rsp))
        end
    end.
Proof.
  intros Hq Hen.
  rewrite (inline_annotationQuery_composed _ _ _ _ _ _ _ _ Hq Hen).
  destruct (this_query _) as [tr [o|exn]]; [|done].
  rewrite (bind_Ret _ _ _ _ eq_refl).
  destruct (toPromise o) as [[rsp|]|err].
  - change (await (Resolved ?x)) with (ret (E:=Exn Raw) x).
    by rewrite bind_ret_l, inline_on_response_run.
  - unfold async, bind. simpl. by rewrite !app_nil_r.
  - unfold async, bind. simpl. by rewrite !app_nil_r.
Qed.

End InlineRuns.

Section SettledResponse.
Context {Raw DataFrame Prep : Type}.
Variable config : Config.
Variable fetch : BackendSrvRequest → Observable Raw Raw.
Variable toDataQueryResponse : Raw → DataQueryResponse DataFrame.
Variable this : DataSourceWithBackend Prep.

Local Abbreviation this_query := (query config fetch toDataQueryResponse this).
Local Abbreviation this_query_target := (@query_target Raw Prep config this).

Lemma query_pipe_settles (o : Observable Raw Raw) :
  toPromise (query_pipe toDataQueryResponse o) =
    Resolved (settled_response toDataQueryResponse o).
Proof.
  unfold toPromise, settled_response.
  rewrite query_pipe_terminal, query_pipe_emitted.
  destruct (terminal o); [|by rewrite last_snoc].
  by rewrite app_nil_r, fmap_last.
Qed.

Lemma query_transport_calls_member request options :
  options ∈ transport_calls (this_query request).1 →
  transport_calls (this_query request).1 = [options].
Proof.
  rewrite query_transport_calls.
  destruct (mapM _ _).2 as [[|q qs]|exn];
    [by intros ?%elem_of_nil|by intros ->%list_elem_of_singleton|by intros ?%elem_of_nil].
Qed.

Lemma body_range_query_body request queries :
  body_range (query_body request queries) = range request.
Proof. unfold query_body. by destruct (range request). Qed.

Lemma returned_entry_is_backend_entry request q entry :
  is_expression q = false →
  (this_query_target request q).2 = Ret entry →
  ∃ id, entry = backend_entry config request
                  (applyTemplateVariables this q (scopedVars request)) id.
Proof.
  intros Hexpr Hret.
  destruct (query_target_cases (Raw:=Raw) config this request q)
    as [[? _]|[(_&exn&_&Hq)|(_&id&_&Hq)]]; [congruence| |].
  - by rewrite Hq in Hret.
  - rewrite Hq in Hret. simpl in Hret. injection Hret as <-. by exists id.
Qed.

Lemma backend_entry_intervalMs request substituted id :
  backend_entry config request substituted id !! "intervalMs" =
    Some (number_or_undefined (intervalMs request)).
Proof. unfold backend_entry. by rewrite 2 lookup_insert_ne, lookup_insert_eq. Qed.

Lemma backend_entry_maxDataPoints request substituted id :
  backend_entry config request substituted id !! "maxDataPoints" =
    Some (number_or_undefined (maxDataPoints request)).
Proof. unfold backend_entry. by rewrite lookup_insert_ne, lookup_insert_eq. Qed.

End SettledResponse.

Lemma number_or_nonzero v d : d ≠ 0 → number_or v d ≠ 0.
Proof.
  intros Hd. unfold number_or. destruct v as [n|]; [|done].
  by destruct (Z.eqb_spec n 0).
Qed.

Lemma transport_calls_editor_write {DataFrame} options (rsp : DataQueryResponse DataFrame) :
  transport_calls (editor_write options rsp) = [].
Proof.
  unfold editor_write. destruct (data rsp) as [[|? ?]|]; [done| |done].
  by destruct (options_isEditor options).
Qed.

Section ProcessorDispatch.
Context {Raw DataFrame AnnotationEvent : Type}.
Variable config : Config.
Variable fetch : BackendSrvRequest → Observable Raw Raw.
Variable toDataQueryResponse : Raw → DataQueryResponse DataFrame.
Variable getAnnotationsFromFrame : DataFrame → AnnotationsResult AnnotationEvent.
Variable this : DataSourceWithBackend
                  (AnnotationQueryRequest → Processor.Prepared DataFrame AnnotationEvent).

Local Abbreviation this_query := (query config fetch toDataQueryResponse this).
Local Abbreviation annotationQuery :=
  (Processor.annotationQuery config fetch toDataQueryResponse getAnnotationsFromFrame this).

(** The trace of the first revision is the trace of [this.query]. *)
Lemma processor_annotationQuery_trace options now prepare q :
  prepareAnnotationQuery this = Some prepare →
  enable (options_annotation options) = true →
  Processor.prepared_query (prepare options) = Some q →
  (annotationQuery options now).1 =
    (this_query (Processor.annotation_request options now q)).1.
Proof.
  intros Hprep Hen Hq.
  rewrite (processor_annotationQuery_run _ _ _ _ _ _ _ _ _ Hprep Hen Hq).
  destruct (this_query _) as [tr [o|exn]]; [|done].
  by destruct (toPromise o) as [[rsp|]|err].
Qed.

Lemma processor_annotationQuery_call_inv options now options' :
  options' ∈ transport_calls (annotationQuery options now).1 →
  ∃ prepare q,
    prepareAnnotationQuery this = Some prepare ∧
    enable (options_annotation options) = true ∧
    Processor.prepared_query (prepare options) = Some q ∧
    options' ∈ transport_calls (this_query (Processor.annotation_request options now q)).1.
Proof.
  intros Hin.
  destruct (prepareAnnotationQuery this) as [prepare|] eqn:Hprep.
  2: { unfold Processor.annotationQuery in Hin. rewrite Hprep in Hin.
       by apply elem_of_nil in Hin. }
  destruct (enable (options_annotation options)) eqn:Hen.
  2: { unfold Processor.annotationQuery in Hin. rewrite Hprep, Hen in Hin.
       by apply elem_of_nil in Hin. }
  destruct (Processor.prepared_query (prepare options)) as [q|] eqn:Hq.
  2: { unfold Processor.annotationQuery in Hin. rewrite Hprep, Hen, Hq in Hin.
       by apply elem_of_nil in Hin. }
  exists prepare, q. repeat split; try done.
  by rewrite (processor_annotationQuery_trace _ _ _ _ Hprep Hen Hq) in Hin.
Qed.

Lemma processor_annotationQuery_dispatched options now prepare q options' :
  prepareAnnotationQuery this = Some prepare →
  enable (options_annotation options) = true →
  Processor.prepared_query (prepare options) = Some q →
  options' ∈ transport_calls (this_query (Processor.annotation_request options now q)).1 →
  (annotationQuery options now).2 =
    match settled_response toDataQueryResponse (fetch options') with
    | Some rsp =>
        Resolved (processor_events getAnnotationsFromFrame
                    (Processor.prepared_processor (prepare options)) rsp)
    | None => Rejected (TypeError "Cannot read property 'data' of undefined")
    end.
Proof.
  intros Hprep Hen Hq Hin.
  rewrite (processor_annotationQuery_run _ _ _ _ _ _ _ _ _ Hprep Hen Hq).
  destruct (query_single_target_call config fetch toDataQueryResponse this
              (Processor.annotation_request options now q) q options' eq_refl Hin)
    as (entry & _ & _ & _ & Hout).
  destruct (this_query _) as [tr out]. simpl in Hout. subst out.
  rewrite query_pipe_settles. by destruct (settled_response _ _).
Qed.

End ProcessorDispatch.

Section InlineDispatch.
Context {Raw DataFrame AnnotationEvent : Type}.
Variable config : Config.
Variable fetch : BackendSrvRequest → Observable Raw Raw.
Variable toDataQueryResponse : Raw → DataQueryResponse DataFrame.
Variable getAnnotationsFromFrame : DataFrame → AnnotationsResult AnnotationEvent.
Variable this : DataSourceWithBackend (AnnotationQueryRequest → option JsObject).

Local Abbreviation this_query := (query config fetch toDataQueryResponse this).
Local Abbreviation annotationQuery :=
  (Inline.annotationQuery config fetch toDataQueryResponse getAnnotationsFromFrame this).

(** The second revision adds no transport call to those of [this.query]. *)
Lemma inline_annotationQuery_transport_calls options now q :
  Inline.resolved_query this options = Some q →
  enable (options_annotation options) = true →
  transport_calls (annotationQuery options now).1 =
    transport_calls (this_query (Inline.annotation_request options now q)).1.
Proof.
  intros Hq Hen.
  rewrite (inline_annotationQuery_run _ _ _ _ _ _ _ _ Hq Hen).
  destruct (this_query _) as [tr [o|exn]]; [|done].
  destruct (toPromise o) as [[rsp|]|err]; [|done..].
  simpl. by rewrite transport_calls_app, transport_calls_editor_write, app_nil_r.
Qed.

Lemma inline_annotationQuery_call_inv options now options' :
  options' ∈ transport_calls (annotationQuery options now).1 →
  ∃ q,
    Inline.resolved_query this options = Some q ∧
    enable (options_annotation options) = true ∧
    options' ∈ transport_calls (this_query (Inline.annotation_request options now q)).1.
Proof.
  intros Hin.
  destruct (Inline.resolved_query this options) as [q|] eqn:Hq.
  2: { unfold Inline.annotationQuery in Hin. rewrite Hq in Hin.
       by apply elem_of_nil in Hin. }
  destruct (enable (options_annotation options)) eqn:Hen.
  2: { unfold Inline.annotationQuery in Hin. rewrite Hq, Hen in Hin.
       by apply elem_of_nil in Hin. }
  exists q. repeat split; try done.
  by rewrite (inline_annotationQuery_transport_calls _ _ _ Hq Hen) in Hin.
Qed.

Lemma inline_annotationQuery_dispatched options now q options' :
  Inline.resolved_query this options = Some q →
  enable (options_annotation options) = true →
  options' ∈ transport_calls (this_query (Inline.annotation_request options now q)).1 →
  annotationQuery options now =
    match settled_response toDataQueryResponse (fetch options') with
    | Some rsp =>
        ((this_query (Inline.annotation_request options now q)).1 ++
           editor_write options rsp,
         Resolved (frame_events getAnnotationsFromFrame rsp))
    | None =>
        ((this_query (Inline.annotation_request options now q)).1,
         Rejected (TypeError "Cannot read property 'data' of undefined"))
    end.
Proof.
  intros Hq Hen Hin.
  rewrite (inline_annotationQuery_run _ _ _ _ _ _ _ _ Hq Hen).
  destruct (query_single_target_call config fetch toDataQueryResponse this
              (Inline.annotation_request options now q) q options' eq_refl Hin)
    as (entry & _ & _ & _ & Hout).
  destruct (this_query _) as [tr out]. simpl in Hout. subst out.
  rewrite query_pipe_settles. by destruct (settled_response _ _).
Qed.

End InlineDispatch.
